(** * STT delivery pipeline: deduplication store, send orchestrator, batch scanner

    A shallow embedding of the services of the webhook-services repository
    that relay finalized consultations to the STT:

    - [STTDeduplicationService] (canSendToSTT, acquireLock, releaseLock,
      cleanupStuckLocks),
    - [STTSendService] (sendToSTT, buscarDadosConsulta, buildPayload,
      buildPayloadFromPrisma, atualizarResultado, registrarErro,
      calculateNextRetry),
    - [STTService] (findPendingConsultas, processarPendentes,
      getRecentSends),
    - [STTController.retryVoucher] and [authMiddleware].

    Conventions.  A [Date] or SQL timestamp is its epoch time in
    milliseconds, a [Z]; [NOW()] and [Date.now()] are read from a clock
    given to each operation.  A nullable column or an optional field is an
    [option].  The table [stt_envio_controle] has a unique index on
    [consulta_id] (the conflict target of the upsert), so it is a finite
    map from the consultation id to its row.  SQL conditions are read with
    three-valued logic: a row is selected when its condition is true.

    Every statement is a tagged template of the database client
    ([$queryRaw], [$executeRaw]): each interpolated value is sent as a bind
    parameter and none is substituted into the text.  A value written
    inside a quoted literal of the statement (the number of an
    [INTERVAL '... minutes']) is therefore a parameter for which the text
    has no place, and the server rejects the statement: the client raises.
    A statement all of whose values stand outside literals runs as written.
    For a rejected statement the embedding still gives what its text
    describes, reading the interval with the number written in its place;
    [run_statement] discards it.  The rows a query returns are objects
    keyed by column name. *)

From stdpp Require Import gmap strings list fin_maps sorting pretty.
From Stdlib Require Import Ascii.

Local Open Scope Z_scope.

(** ** Configuration (config.timeouts, config.stt) *)

Record Config := {
  lockTimeoutMinutes : Z;
  modoTeste : bool;
}.

(** [INTERVAL 'n minutes'] and [INTERVAL 'n days'] in milliseconds. *)
Definition minutes (n : Z) : Z := n * 60 * 1000.
Definition days_ms (n : Z) : Z := n * 24 * 60 * 60 * 1000.

(** ** JavaScript truthiness of optional values: [x || d] *)

Definition truthy_str (s : option string) : option string :=
  match s with
  | Some "" => None
  | Some x => Some x
  | None => None
  end.

Definition or_str (s : option string) (d : string) : string :=
  match truthy_str s with Some x => x | None => d end.

Definition or_bool (b : option bool) (d : bool) : bool :=
  match b with Some true => true | _ => d end.

Definition truthy_num (n : option Z) : option Z :=
  match n with
  | Some z => if z =? 0 then None else Some z
  | None => None
  end.

(** ** The control row (interface STTEnvioControle, table stt_envio_controle)

    The columns the services read or write. *)

Record STTEnvioControle := {
  ctl_id : string;
  consultaId : string;
  ctl_voucher : string;
  codigoInternoStt : option string;
  enviado : bool;
  dataEnvio : option Z;
  tentativas : Z;
  ultimaTentativa : option Z;
  proximoRetry : option Z;
  processandoDesde : option Z;
  respostaStatusCode : option Z;
  respostaBody : option string;
  respostaHeaders : option string;
  respostaErro : option string;
  pacienteNome : option string;
  profissionalNome : option string;
  profissionalRegistro : option string;
  payloadEnviado : option string;
  createdAt : Z;
  updatedAt : Z;
}.

Abbreviation Controles := (gmap string STTEnvioControle).

(** [SELECT * ... WHERE consulta_id = id AND cond LIMIT 1]. *)
Definition select_controle (cond : STTEnvioControle → bool)
    (id : string) (ctl : Controles) : option STTEnvioControle :=
  match ctl !! id with
  | Some r => if cond r then Some r else None
  | None => None
  end.

(** [UPDATE ... SET upd WHERE consulta_id = id]. *)
Definition update_controle (upd : STTEnvioControle → STTEnvioControle)
    (id : string) (ctl : Controles) : Controles :=
  alter upd id ctl.

(** [col = v] on a nullable integer column: true only on a non-null match. *)
Definition status_eq (c : option Z) (v : Z) : bool :=
  match c with Some s => s =? v | None => false end.

(** ** Thrown values and the outcome of a call *)

(** A value thrown by a stage: an [Error] with its message, or any other
    value with its [String(error)]; both with [error.response?.status]. *)
Inductive Thrown :=
  | ErrorObj (message : string) (response_status : option Z)
  | OtherThrown (text : string) (response_status : option Z).

Definition thrown_status (e : Thrown) : option Z :=
  match e with
  | ErrorObj _ s => s
  | OtherThrown _ s => s
  end.

Inductive Outcome (A : Type) :=
  | Returned (a : A)
  | Raised (e : Thrown).
Arguments Returned {A} a.
Arguments Raised {A} e.

(** ** The statements of the deduplication store and of the batch query *)

Inductive Statement :=
  | StDelivered   (* canSendToSTT, first query *)
  | StCheck       (* canSendToSTT, second query *)
  | StUpsert      (* acquireLock *)
  | StSweep       (* cleanupStuckLocks *)
  | StPending.    (* findPendingConsultas *)

(** For each interpolated value of the template, in the order of the text,
    whether it is written inside a quoted literal:
    - StDelivered: [consultaId];
    - StCheck: [consultaId], then [lockTimeoutMinutes] in the interval;
    - StUpsert: [consultaId], [voucher], then [lockTimeoutMinutes] in the
      interval;
    - StSweep: [lockTimeoutMinutes * 2] in the interval;
    - StPending: [days] in the interval, then [limit]. *)
Definition in_literal (s : Statement) : list bool :=
  match s with
  | StDelivered => [false]
  | StCheck => [false; true]
  | StUpsert => [false; false; true]
  | StSweep => [true]
  | StPending => [true; false]
  end.

(** The server accepts a statement when none of its values is inside a
    literal. *)
Definition accepted (s : Statement) : bool := forallb negb (in_literal s).

(** Sending a statement: [result] is what the statement yields when it
    runs; a rejected statement has no effect and the client raises an
    [Error] with the message [rejection s]. *)
Definition run_statement {A} (rejection : Statement → string) (s : Statement)
    (result : A) : Outcome A :=
  if accepted s then Returned result
  else Raised (ErrorObj (rejection s) None).

(** ** STTDeduplicationService *)

Section Dedup.
Variable cfg : Config.
(** [new Date(d).toLocaleString('pt-BR')], left abstract. *)
Variable toLocaleString : Z → string.
(** The message of the error raised for each rejected statement. *)
Variable rejection : Statement → string.

(** The [WHERE] of the first query of canSendToSTT. *)
Definition ja_enviado (r : STTEnvioControle) : bool :=
  enviado r && status_eq (respostaStatusCode r) 200.

(** The [WHERE] of the second query of canSendToSTT, reading the interval
    with the timeout written in: a lock younger than the timeout. *)
Definition em_processamento (now : Z) (r : STTEnvioControle) : bool :=
  match processandoDesde r with
  | Some t => now - minutes (lockTimeoutMinutes cfg) <? t
  | None => false
  end.

(** The timestamp properties of a row returned by [$queryRaw]: the object
    is keyed by column name, and any other property is undefined. *)
Definition raw_date (r : STTEnvioControle) (key : string) : option Z :=
  if bool_decide (key = "data_envio") then dataEnvio r
  else if bool_decide (key = "ultima_tentativa") then ultimaTentativa r
  else if bool_decide (key = "proximo_retry") then proximoRetry r
  else if bool_decide (key = "processando_desde") then processandoDesde r
  else if bool_decide (key = "created_at") then Some (createdAt r)
  else if bool_decide (key = "updated_at") then Some (updatedAt r)
  else None.

(** [controle[0].dataEnvio ? new Date(...).toLocaleString('pt-BR')
     : 'data desconhecida']. *)
Definition dataEnvio_text (r : STTEnvioControle) : string :=
  match raw_date r "dataEnvio" with
  | Some d => toLocaleString d
  | None => "data desconhecida"
  end.

(** [Math.floor((Date.now() - new Date(processandoDesde).getTime()) / 1000)]
    as it prints; the time of an undefined date is NaN. *)
Definition segundos_text (now : Z) (r : STTEnvioControle) : string :=
  match raw_date r "processandoDesde" with
  | Some t => pretty ((now - t) / 1000)
  | None => "NaN"
  end.

(** canSendToSTT: the pair (canSend, reason), or what the [catch]
    rethrows. *)
Definition canSendToSTT (now : Z) (id : string) (ctl : Controles)
    : Outcome (bool * option string) :=
  match run_statement rejection StDelivered
          (select_controle ja_enviado id ctl) with
  | Raised error => Raised error
  | Returned (Some r) =>
    Returned (false, Some ("Já enviado com sucesso em " +:+ dataEnvio_text r))
  | Returned None =>
    match run_statement rejection StCheck
            (select_controle (em_processamento now) id ctl) with
    | Raised error => Raised error
    | Returned (Some r) =>
      Returned (false,
                Some ("Em processamento há " +:+ segundos_text now r +:+ "s"))
    | Returned None => Returned (true, None)
    end
  end.

(** The row inserted by acquireLock when there is no conflict. *)
Definition lock_insert (now : Z) (uuid id v : string) : STTEnvioControle :=
  {| ctl_id := uuid; consultaId := id; ctl_voucher := v;
     codigoInternoStt := None; enviado := false; dataEnvio := None;
     tentativas := 1; ultimaTentativa := Some now; proximoRetry := None;
     processandoDesde := Some now; respostaStatusCode := None;
     respostaBody := None; respostaHeaders := None; respostaErro := None;
     pacienteNome := None; profissionalNome := None;
     profissionalRegistro := None; payloadEnviado := None;
     createdAt := now; updatedAt := now |}.

(** The [CASE] of the conflict branch: the new value of processando_desde. *)
Definition lock_case (now : Z) (r : STTEnvioControle) : option Z :=
  match processandoDesde r with
  | None => Some now
  | Some t =>
    if (t <? now - minutes (lockTimeoutMinutes cfg)) || enviado r
    then Some now else Some t
  end.

(** [ON CONFLICT (consulta_id) DO UPDATE SET ...]. *)
Definition lock_update (now : Z) (r : STTEnvioControle) : STTEnvioControle :=
  {| ctl_id := ctl_id r; consultaId := consultaId r;
     ctl_voucher := ctl_voucher r;
     codigoInternoStt := codigoInternoStt r; enviado := enviado r;
     dataEnvio := dataEnvio r;
     tentativas := tentativas r + 1; ultimaTentativa := Some now;
     proximoRetry := proximoRetry r;
     processandoDesde := lock_case now r;
     respostaStatusCode := respostaStatusCode r;
     respostaBody := respostaBody r; respostaHeaders := respostaHeaders r;
     respostaErro := respostaErro r;
     pacienteNome := pacienteNome r; profissionalNome := profissionalNome r;
     profissionalRegistro := profissionalRegistro r;
     payloadEnviado := payloadEnviado r;
     createdAt := createdAt r; updatedAt := now |}.

(** The [WHERE] of the conflict branch:
    [enviado = false OR resposta_status_code != 200
     OR resposta_status_code IS NULL]. *)
Definition lock_where (r : STTEnvioControle) : bool :=
  negb (enviado r)
  || match respostaStatusCode r with
     | Some s => negb (s =? 200)
     | None => true
     end.

(** The upsert of acquireLock: the number of rows affected and the table
    its text describes, or the error of its rejection. *)
Definition acquireLock_upsert (now : Z) (uuid id v : string) (ctl : Controles)
    : Outcome (Z * Controles) :=
  run_statement rejection StUpsert
    match ctl !! id with
    | None => (1, <[id := lock_insert now uuid id v]> ctl)
    | Some r =>
      if lock_where r then (1, <[id := lock_update now r]> ctl) else (0, ctl)
    end.

(** acquireLock: [lockAcquired = result > 0]; the [catch] logs and returns
    [false]. *)
Definition acquireLock (now : Z) (uuid id v : string) (ctl : Controles)
    : bool * Controles :=
  match acquireLock_upsert now uuid id v ctl with
  | Returned (result, ctl') => (0 <? result, ctl')
  | Raised _ => (false, ctl)
  end.

Definition set_unlocked (now : Z) (r : STTEnvioControle) : STTEnvioControle :=
  {| ctl_id := ctl_id r; consultaId := consultaId r;
     ctl_voucher := ctl_voucher r;
     codigoInternoStt := codigoInternoStt r; enviado := enviado r;
     dataEnvio := dataEnvio r;
     tentativas := tentativas r; ultimaTentativa := ultimaTentativa r;
     proximoRetry := proximoRetry r;
     processandoDesde := None;
     respostaStatusCode := respostaStatusCode r;
     respostaBody := respostaBody r; respostaHeaders := respostaHeaders r;
     respostaErro := respostaErro r;
     pacienteNome := pacienteNome r; profissionalNome := profissionalNome r;
     profissionalRegistro := profissionalRegistro r;
     payloadEnviado := payloadEnviado r;
     createdAt := createdAt r; updatedAt := now |}.

(** The [UPDATE] of releaseLock. *)
Definition releaseLock (now : Z) (id : string) (ctl : Controles) : Controles :=
  update_controle (set_unlocked now) id ctl.

(** The [WHERE] of cleanupStuckLocks. *)
Definition stuck (now : Z) (r : STTEnvioControle) : bool :=
  match processandoDesde r with
  | Some t => (t <? now - minutes (lockTimeoutMinutes cfg * 2)) && negb (enviado r)
  | None => false
  end.

(** cleanupStuckLocks: the number of rows changed and the table; the
    [catch] logs and returns 0. *)
Definition cleanupStuckLocks (now : Z) (ctl : Controles) : Z * Controles :=
  match run_statement rejection StSweep
          (Z.of_nat (size (filter (λ kr, stuck now kr.2 = true) ctl)),
           (λ r, if stuck now r then set_unlocked now r else r) <$> ctl) with
  | Returned result => result
  | Raised _ => (0, ctl)
  end.

End Dedup.

(** ** The source record (interface ConsultaCompleta) and the wire payload *)

Record Cid := {
  codigo : string;
  descricao : string;
  principal : bool;
}.

Record Evolucao := {
  ev_status : option string;
  tipoAtendimentoMedico : option string;
  queixaDuracao : option string;
  tipoQueixa : option string;
  historiaProgressa : option string;
  antecedentePessoal : option bool;
  antecedentePessoalDetalhes : option string;
  diagnosticoDetalhado : option string;
  hipoteseDiagnostica : option string;
  conduta : option string;
  atestado : option bool;
  prescricao : option bool;
  solicitacaoExames : option bool;
  desfecho : option string;
  cids : option (list Cid);
}.

Record AgendamentoStt := {
  codigoInterno : string;
  origem : string;
}.

Record ConsultaTempo := {
  atendimentoIniciadoEm : option Z;
  atendimentoFinalizadoEm : option Z;
  profissionalAcessouEm : option Z;
}.

Record Paciente := {
  nome : string;
  cpf : option string;
}.

Record Profissional := {
  registro : option string;
  user : option string;  (* user.name *)
}.

Record ConsultaCompleta := {
  cc_id : string;
  cc_voucher : string;
  cc_status : string;
  dataRealizada : option Z;
  evolucao : option Evolucao;
  agendamentoStt : option AgendamentoStt;
  consultaTempo : option ConsultaTempo;
  paciente : option Paciente;
  profissional : option Profissional;
}.

(** Interface STTPayload.  [casoId] is an [option] because
    buildPayloadFromPrisma returns an untyped object whose [casoId] may be
    [undefined] ([None]); [dataInicioAtendimento] is [string | null]. *)
Record STTPayload := {
  p_status : string;
  p_tipoAtendimentoMedico : string;
  prioridade : string;
  p_queixaDuracao : string;
  p_tipoQueixa : string;
  historiaPregressaMolestiaAtual : string;
  antecedentesPessoais : string;
  detalharDiagnostico : string;
  p_hipoteseDiagnostica : string;
  p_cids : list Cid;
  p_conduta : string;
  p_atestado : bool;
  p_prescricao : bool;
  solicitaoExames : bool;
  p_desfecho : string;
  casoId : option string;
  dataInicioAtendimento : option string;
  dataFimAtendimento : string;
  pdf : string;
  crm : string;
}.

(** [consulta.evolucao?.f]: the field of the note, when there is a note. *)
Definition ev_field {A} (f : Evolucao → option A) (c : ConsultaCompleta) : option A :=
  evolucao c ≫= f.

Definition tempo_field (f : ConsultaTempo → option Z) (c : ConsultaCompleta) : option Z :=
  consultaTempo c ≫= f.

Section Payload.
(** [format(utcToZonedTime(d, 'America/Sao_Paulo'),
    "yyyy-MM-dd'T'HH:mm:ssXXX", { timeZone: 'America/Sao_Paulo' })],
    left abstract. *)
Variable formatSaoPaulo : Z → string.

Definition antecedentes (c : ConsultaCompleta) : string :=
  if or_bool (ev_field antecedentePessoal c) false
  then or_str (ev_field antecedentePessoalDetalhes c) "Sim"
  else "Não".

Definition inicio_atendimento (c : ConsultaCompleta) : option string :=
  match tempo_field atendimentoIniciadoEm c with
  | Some t => Some (formatSaoPaulo t)
  | None =>
    match tempo_field profissionalAcessouEm c with
    | Some t => Some (formatSaoPaulo t)
    | None => None
    end
  end.

Definition fim_atendimento (now : Z) (c : ConsultaCompleta) : string :=
  match tempo_field atendimentoFinalizadoEm c with
  | Some t => formatSaoPaulo t
  | None => formatSaoPaulo now
  end.

(** buildPayload, given the rendered document and the time of [new Date()]. *)
Definition buildPayload (now : Z) (pdfBase64 : string) (c : ConsultaCompleta)
    : STTPayload :=
  {| p_status := or_str (ev_field ev_status c) "Efetivo";
     p_tipoAtendimentoMedico := or_str (ev_field tipoAtendimentoMedico c) "OMV";
     prioridade := "Normal";
     p_queixaDuracao := or_str (ev_field queixaDuracao c) "";
     p_tipoQueixa := or_str (ev_field tipoQueixa c) "";
     historiaPregressaMolestiaAtual := or_str (ev_field historiaProgressa c) "";
     antecedentesPessoais := antecedentes c;
     detalharDiagnostico := or_str (ev_field diagnosticoDetalhado c) "";
     p_hipoteseDiagnostica := or_str (ev_field hipoteseDiagnostica c) "";
     p_cids := default [] (ev_field cids c);
     p_conduta := or_str (ev_field conduta c) "";
     p_atestado := or_bool (ev_field atestado c) false;
     p_prescricao := or_bool (ev_field prescricao c) false;
     solicitaoExames := or_bool (ev_field solicitacaoExames c) false;
     p_desfecho := or_str (ev_field desfecho c) "";
     casoId := Some (or_str (codigoInterno <$> agendamentoStt c) "");
     dataInicioAtendimento := inicio_atendimento c;
     dataFimAtendimento := fim_atendimento now c;
     pdf := pdfBase64;
     crm := or_str (profissional c ≫= registro) "" |}.

(** The [cids] of buildPayloadFromPrisma: each one copied field by field. *)
Definition cidsFormatados (c : ConsultaCompleta) : list Cid :=
  default []
    (fmap (M := list)
       (λ cid, {| codigo := codigo cid; descricao := descricao cid;
                  principal := principal cid |})
     <$> ev_field cids c).

(** buildPayloadFromPrisma, on the same record and rendered document. *)
Definition buildPayloadFromPrisma (now : Z) (pdfBase64 : string)
    (c : ConsultaCompleta) : STTPayload :=
  {| p_status := or_str (ev_field ev_status c) "Efetivo";
     p_tipoAtendimentoMedico := or_str (ev_field tipoAtendimentoMedico c) "OMV";
     prioridade := "Normal";
     p_queixaDuracao := or_str (ev_field queixaDuracao c) "";
     p_tipoQueixa := or_str (ev_field tipoQueixa c) "";
     historiaPregressaMolestiaAtual := or_str (ev_field historiaProgressa c) "";
     antecedentesPessoais := antecedentes c;
     detalharDiagnostico := or_str (ev_field diagnosticoDetalhado c) "";
     p_hipoteseDiagnostica := or_str (ev_field hipoteseDiagnostica c) "";
     p_cids := cidsFormatados c;
     p_conduta := or_str (ev_field conduta c) "";
     p_atestado := or_bool (ev_field atestado c) false;
     p_prescricao := or_bool (ev_field prescricao c) false;
     solicitaoExames := or_bool (ev_field solicitacaoExames c) false;
     p_desfecho := or_str (ev_field desfecho c) "";
     casoId := codigoInterno <$> agendamentoStt c;
     dataInicioAtendimento := inicio_atendimento c;
     dataFimAtendimento := fim_atendimento now c;
     pdf := pdfBase64;
     crm := or_str (profissional c ≫= registro) "" |}.

End Payload.

(** ** Effects: the store, a ghost trace, and exceptions *)

(** The trace records the calls the properties count; it is not program
    state. *)
Inductive Event :=
  | EvAcquire (id : string)
  | EvRelease (id : string)
  | EvPost (payload : STTPayload).

Record State := {
  ctl : Controles;
  log : list Event;
}.

Definition E (A : Type) : Type := State → Outcome A * State.

#[export] Instance E_ret : MRet E := λ A a st, (Returned a, st).
#[export] Instance E_bind : MBind E := λ A B f m st,
  match m st with
  | (Returned a, st') => f a st'
  | (Raised e, st') => (Raised e, st')
  end.

Definition throw {A} (e : Thrown) : E A := λ st, (Raised e, st).

(** A call that reads the table and returns or raises. *)
Definition query {A} (f : Controles → Outcome A) : E A := λ st, (f (ctl st), st).

Definition write (f : Controles → Controles) : E unit :=
  λ st, (Returned (), {| ctl := f (ctl st); log := log st |}).

Definition emit (ev : Event) : E unit :=
  λ st, (Returned (), {| ctl := ctl st; log := log st ++ [ev] |}).

(** [try { body } catch (error) { handler(error) }]. *)
Definition try_catch {A} (body : E A) (handler : Thrown → E A) : E A := λ st,
  match body st with
  | (Returned a, st') => (Returned a, st')
  | (Raised e, st') => handler e st'
  end.

(** [try { body } finally { fin }]: [fin] runs after a return and after a
    raise; the outcome of [body] stands unless [fin] raises. *)
Definition try_finally {A} (body : E A) (fin : E unit) : E A := λ st,
  let '(o, st1) := body st in
  match fin st1 with
  | (Returned _, st2) => (o, st2)
  | (Raised e, st2) => (Raised e, st2)
  end.

(** ** STTSendService *)

Inductive Status := SENT | BLOCKED | LOCK_FAILED | ERROR | DRY_RUN.

Record SendResult := {
  success : bool;
  status : Status;
  reason : option string;
  httpStatus : option Z;
  response : option string;  (* response.data, serialized *)
}.

(** What the transport returned: the status, [JSON.stringify] of the data
    and of the headers, [data?.error] and [statusText]. *)
Record Response := {
  r_status : Z;
  r_data : string;
  r_headers : string;
  r_error : option string;
  r_statusText : option string;
}.

(** How [axios.post] ends: a response, an Axios error (with the response
    received, if any), or another thrown value. *)
Inductive AxiosOutcome :=
  | AxiosOk (r : Response)
  | AxiosError (e : Thrown) (resp : option Response)
  | AxiosOther (e : Thrown).

(** How the query of buscarDadosConsulta ends. *)
Inductive FetchOutcome :=
  | FetchRow (c : ConsultaCompleta)
  | FetchEmpty
  | FetchRaised (e : Thrown).

(** The points of sendToSTT that read a clock. *)
Inductive Phase :=
  | PCheck | PLock | PRecheck | PFetchRelease | PBuild | PDispatch
  | PRecord | PErro | PRelease.

(** The environment of one invocation of sendToSTT: the clock, the message
    of the error raised for each rejected statement, and how each external
    call ends.  A [Some e] in a [_raises] field makes that stage throw [e]
    before it has any effect; [lock_raises] makes the store fail inside
    acquireLock.  [erro_fails], [release_fails] and [fetch_release_fails]
    make the store fail inside registrarErro, inside the releaseLock of the
    [finally] block and inside the releaseLock that follows an empty fetch:
    the write does not happen, and the code only logs the failure.
    [rendered] is what gerarPdfEvolucao returns (the empty string when
    rendering fails; it never throws). *)
Record Env := {
  clock : Phase → Z;
  uuid : string;
  rejection : Statement → string;
  check_raises : option Thrown;
  lock_raises : bool;
  recheck_raises : option Thrown;
  fetch : FetchOutcome;
  rendered : string;
  build_raises : option Thrown;
  post : STTPayload → AxiosOutcome;
  record_raises : option Thrown;
  erro_fails : bool;
  release_fails : bool;
  fetch_release_fails : bool;
}.

Definition quoted (s : string) : string :=
  let dq := String (ascii_of_nat 34) EmptyString in dq +:+ s +:+ dq.

Section Send.
Variable cfg : Config.
Variable toLocaleString : Z → string.
Variable formatSaoPaulo : Z → string.
(** [Date.prototype.toJSON] and [JSON.stringify(payload)], left abstract. *)
Variable toISOString : Z → string.
Variable stringify : STTPayload → string.

Definition may_raise (r : option Thrown) : E unit :=
  match r with Some e => throw e | None => mret () end.

(** canSendToSTT as called by sendToSTT: it rethrows what the store
    raises. *)
Definition canSendToSTT_call (rej : Statement → string) (r : option Thrown)
    (now : Z) (id : string) : E (bool * option string) :=
  may_raise r;; query (canSendToSTT cfg toLocaleString rej now id).

(** acquireLock as called by sendToSTT: [false] when the store raises. *)
Definition acquireLock_call (rej : Statement → string) (raises : bool)
    (now : Z) (uuid id v : string) : E bool := λ st,
  let st := {| ctl := ctl st; log := log st ++ [EvAcquire id] |} in
  if raises then (Returned false, st)
  else
    let '(ok, ctl') := acquireLock cfg rej now uuid id v (ctl st) in
    (Returned ok, {| ctl := ctl'; log := log st |}).

(** releaseLock as called by sendToSTT: a failure of the store is logged
    and nothing is written. *)
Definition releaseLock_call (fails : bool) (now : Z) (id : string) : E unit :=
  emit (EvRelease id);;
  if fails then mret () else write (releaseLock now id).

(** buscarDadosConsulta: [null] when no row is found and when the query
    raises. *)
Definition buscarDadosConsulta (o : FetchOutcome) : option ConsultaCompleta :=
  match o with
  | FetchRow c => Some c
  | FetchEmpty => None
  | FetchRaised _ => None
  end.

(** enviarHttpRequest. *)
Definition enviarHttpRequest (post : STTPayload → AxiosOutcome)
    (payload : STTPayload) : E Response :=
  emit (EvPost payload);;
  match post payload with
  | AxiosOk r => mret r
  | AxiosError e (Some r) => mret r
  | AxiosError e None => throw e
  | AxiosOther e => throw e
  end.

(** The response synthesized in test mode. *)
Definition simulated (now : Z) : Response :=
  {| r_status := 200;
     r_data := "{" +:+ quoted "simulated" +:+ ":true," +:+ quoted "timestamp"
               +:+ ":" +:+ quoted (toISOString now) +:+ "}";
     r_headers := "{" +:+ quoted "x-simulated" +:+ ":" +:+ quoted "true" +:+ "}";
     r_error := None;
     r_statusText := None |}.

(** The [SET] of atualizarResultado. *)
Definition set_resultado (now : Z) (c : ConsultaCompleta)
    (payload : STTPayload) (resp : Response) (r : STTEnvioControle)
    : STTEnvioControle :=
  let sucesso := r_status resp =? 200 in
  {| ctl_id := ctl_id r; consultaId := consultaId r;
     ctl_voucher := ctl_voucher r;
     codigoInternoStt := codigoInterno <$> agendamentoStt c;
     enviado := sucesso;
     dataEnvio := if sucesso then Some now else None;
     tentativas := tentativas r; ultimaTentativa := ultimaTentativa r;
     proximoRetry := proximoRetry r;
     processandoDesde := None;
     respostaStatusCode := Some (r_status resp);
     respostaBody := Some (r_data resp);
     respostaHeaders := Some (r_headers resp);
     respostaErro :=
       if sucesso then None
       else match truthy_str (r_error resp) with
            | Some e => Some e
            | None => r_statusText resp
            end;
     pacienteNome := nome <$> paciente c;
     profissionalNome := profissional c ≫= user;
     profissionalRegistro := profissional c ≫= registro;
     payloadEnviado := Some (stringify payload);
     createdAt := createdAt r; updatedAt := now |}.

Definition atualizarResultado (raises : option Thrown) (now : Z) (id : string)
    (c : ConsultaCompleta) (payload : STTPayload) (resp : Response) : E unit :=
  may_raise raises;;
  write (update_controle (set_resultado now c payload resp) id).

(** calculateNextRetry. *)
Definition calculateNextRetry (now : Z) : Z := now + 30 * 60 * 1000.

(** The [SET] of registrarErro. *)
Definition set_erro (now : Z) (error : Thrown) (r : STTEnvioControle)
    : STTEnvioControle :=
  let errorMessage :=
    match error with ErrorObj m _ => m | OtherThrown s _ => s end in
  let statusCode := truthy_num (thrown_status error) in
  {| ctl_id := ctl_id r; consultaId := consultaId r;
     ctl_voucher := ctl_voucher r;
     codigoInternoStt := codigoInternoStt r; enviado := enviado r;
     dataEnvio := dataEnvio r;
     tentativas := tentativas r; ultimaTentativa := ultimaTentativa r;
     proximoRetry := Some (calculateNextRetry now);
     processandoDesde := None;
     respostaStatusCode := statusCode;
     respostaBody := respostaBody r; respostaHeaders := respostaHeaders r;
     respostaErro := Some errorMessage;
     pacienteNome := pacienteNome r; profissionalNome := profissionalNome r;
     profissionalRegistro := profissionalRegistro r;
     payloadEnviado := payloadEnviado r;
     createdAt := createdAt r; updatedAt := now |}.

(** registrarErro: a failure of the store is logged and nothing is
    written. *)
Definition registrarErro (fails : bool) (now : Z) (id : string)
    (error : Thrown) : E unit :=
  if fails then mret () else write (update_controle (set_erro now error) id).

Definition blocked (r : option string) : SendResult :=
  {| success := false; status := BLOCKED; reason := r;
     httpStatus := None; response := None |}.

Definition failed (st : Status) (r : string) : SendResult :=
  {| success := false; status := st; reason := Some r;
     httpStatus := None; response := None |}.

(** The [try] block of sendToSTT. *)
Definition sendToSTT_try (env : Env) (id v : string) : E SendResult :=
  '(canSend, reason) ← canSendToSTT_call (rejection env) (check_raises env)
                          (clock env PCheck) id;
  if negb canSend then mret (blocked reason)
  else
    lockAcquired ← acquireLock_call (rejection env) (lock_raises env)
                     (clock env PLock) (uuid env) id v;
    if negb lockAcquired then
      checkAgain ← canSendToSTT_call (rejection env) (recheck_raises env)
                     (clock env PRecheck) id;
      mret (failed LOCK_FAILED
              (or_str (snd checkAgain) "Não foi possível adquirir lock"))
    else
      match buscarDadosConsulta (fetch env) with
      | None =>
        releaseLock_call (fetch_release_fails env) (clock env PFetchRelease) id;;
        mret (failed ERROR "Consulta não encontrada")
      | Some consulta =>
        may_raise (build_raises env);;
        let payload :=
          buildPayload formatSaoPaulo (clock env PBuild) (rendered env) consulta in
        resp ← (if modoTeste cfg then mret (simulated (clock env PDispatch))
                else enviarHttpRequest (post env) payload);
        atualizarResultado (record_raises env) (clock env PRecord) id
          consulta payload resp;;
        mret {| success := true; status := SENT; reason := None;
                httpStatus := Some (r_status resp);
                response := Some (r_data resp) |}
      end.

(** The [catch] block of sendToSTT. *)
Definition sendToSTT_catch (env : Env) (id : string) (error : Thrown)
    : E SendResult :=
  let errorMessage :=
    match error with ErrorObj m _ => m | OtherThrown _ _ => "Erro desconhecido" end in
  registrarErro (erro_fails env) (clock env PErro) id error;;
  mret (failed ERROR errorMessage).

(** sendToSTT: try, catch, and the release in [finally]. *)
Definition sendToSTT (env : Env) (id v : string) : E SendResult :=
  try_finally
    (try_catch (sendToSTT_try env id v) (sendToSTT_catch env id))
    (releaseLock_call (release_fails env) (clock env PRelease) id).

End Send.

(** ** STTService: the batch scanner *)

(** The rows of the tables read by findPendingConsultas, with the columns
    the query uses. *)
Record Consulta := {
  c_id : string;
  c_voucher : string;
  c_status : string;
  c_updatedAt : Z;
}.

Record AgendamentoSttRow := { ast_voucher : string }.

Record EvolucaoRow := {
  evr_id : string;
  evr_consultaId : string;
}.

Record Tables := {
  consultas : list Consulta;
  agendamentos_stt : list AgendamentoSttRow;
  evolucoes : list EvolucaoRow;
}.

Record PendingConsulta := {
  consulta_id : string;
  pc_voucher : string;
  updated_at : Z;
  pc_tentativas : Z;
  ultima_tentativa : option Z;
  processando_desde : option Z;
}.

#[export] Instance PendingConsulta_eq_dec : EqDecision PendingConsulta.
Proof. solve_decision. Defined.

Record ProcessOptions := {
  days : Z;
  limit : nat;
  dryRun : bool;
}.

Record Detalhe := {
  d_voucher : string;
  d_status : Status;
  d_reason : option string;
  d_tentativas : option Z;
  d_error : option string;
}.

Record ProcessResult := {
  total : Z;
  processados : Z;
  sucesso : Z;
  bloqueados : Z;
  erros : Z;
  detalhes : list Detalhe;
}.

(** The right side of a [LEFT JOIN]: the matching rows, or one null row. *)
Definition left_join {A} (matching : list A) : list (option A) :=
  match matching with
  | [] => [None]
  | _ => Some <$> matching
  end.

(** The retry condition of findPendingConsultas on a joined control row. *)
Definition pode_tentar (now : Z) (sec : STTEnvioControle) : bool :=
  negb (enviado sec)
  && (tentativas sec <? 3)
  && match proximoRetry sec with Some t => t <=? now | None => true end
  && match processandoDesde sec with
     | Some t => t <? now - minutes 5
     | None => true
     end.

(** The [WHERE] of findPendingConsultas on one joined row. *)
Definition pendente_where (now dias : Z) (c : Consulta)
    (ev : option EvolucaoRow) (sec : option STTEnvioControle) : bool :=
  bool_decide (c_status c = "finalizada")
  && bool_decide (is_Some ev)
  && (now - days_ms dias <=? c_updatedAt c)
  && match sec with
     | None => true
     | Some s => pode_tentar now s
     end.

(** The [SELECT] list of findPendingConsultas. *)
Definition pendente_row (c : Consulta) (sec : option STTEnvioControle)
    : PendingConsulta :=
  {| consulta_id := c_id c;
     pc_voucher := c_voucher c;
     updated_at := c_updatedAt c;
     pc_tentativas := default 0 (tentativas <$> sec);
     ultima_tentativa := sec ≫= ultimaTentativa;
     processando_desde := sec ≫= processandoDesde |}.

(** [ORDER BY c."updatedAt" DESC]. *)
Definition mais_recente (a b : PendingConsulta) : Prop :=
  updated_at b ≤ updated_at a.

#[export] Instance mais_recente_dec a b : Decision (mais_recente a b).
Proof. unfold mais_recente. apply _. Defined.

(** The joined and filtered rows of findPendingConsultas, before
    [DISTINCT], [ORDER BY] and [LIMIT]. *)
Definition pendentes_join (now dias : Z) (tabs : Tables) (ctl : Controles)
    : list PendingConsulta :=
  c ← consultas tabs;
  _ ← filter (λ a, ast_voucher a = c_voucher c) (agendamentos_stt tabs);
  ev ← left_join (filter (λ e, evr_consultaId e = c_id c) (evolucoes tabs));
  sec ← left_join (option_list (ctl !! c_id c));
  if pendente_where now dias c ev sec then [pendente_row c sec] else [].

(** The rows the text of the statement of findPendingConsultas describes,
    reading [INTERVAL '${days} days'] with the number of days written in.
    Rows with the same [updatedAt] keep the order of the join. *)
Definition pendentes_query (now : Z) (options : ProcessOptions)
    (tabs : Tables) (ctl : Controles) : list PendingConsulta :=
  take (limit options)
    (merge_sort mais_recente
       (remove_dups (pendentes_join now (days options) tabs ctl))).

(** findPendingConsultas: the rows, or what the [catch] rethrows. *)
Definition findPendingConsultas (rej : Statement → string) (now : Z)
    (options : ProcessOptions) (tabs : Tables) (ctl : Controles)
    : Outcome (list PendingConsulta) :=
  run_statement rej StPending (pendentes_query now options tabs ctl).

(** The clocks of one batch, the message of the error raised for each
    rejected statement, and the environment of each pipeline run. *)
Record BatchEnv := {
  t_cleanup : Z;
  t_find : Z;
  b_rejection : Statement → string;
  runs : nat → Env;
}.

Section Batch.
Variable cfg : Config.
Variable toLocaleString : Z → string.
Variable formatSaoPaulo : Z → string.
Variable toISOString : Z → string.
Variable stringify : STTPayload → string.

Definition push (d : Detalhe) (result : ProcessResult) : ProcessResult :=
  {| total := total result; processados := processados result;
     sucesso := sucesso result; bloqueados := bloqueados result;
     erros := erros result; detalhes := detalhes result ++ [d] |}.

(** The counters after a pipeline run that returned [sendResult]. *)
Definition contar (sendResult : SendResult) (result : ProcessResult)
    : ProcessResult :=
  let blk := match status sendResult with
             | BLOCKED | LOCK_FAILED => true
             | _ => false
             end in
  {| total := total result;
     processados := processados result + 1;
     sucesso := if success sendResult then sucesso result + 1 else sucesso result;
     bloqueados := if success sendResult then bloqueados result
                   else if blk then bloqueados result + 1 else bloqueados result;
     erros := if success sendResult then erros result
              else if blk then erros result else erros result + 1;
     detalhes := detalhes result |}.

Definition contar_erro (result : ProcessResult) : ProcessResult :=
  {| total := total result; processados := processados result;
     sucesso := sucesso result; bloqueados := bloqueados result;
     erros := erros result + 1; detalhes := detalhes result |}.

(** One iteration of the loop of processarPendentes. *)
Definition processar_um (dry : bool) (env : Env) (pendente : PendingConsulta)
    (result : ProcessResult) (st : State) : ProcessResult * State :=
  if dry then
    (push {| d_voucher := pc_voucher pendente; d_status := DRY_RUN;
             d_reason := None;
             d_tentativas := Some (pc_tentativas pendente);
             d_error := None |} result, st)
  else
    match sendToSTT cfg toLocaleString formatSaoPaulo toISOString stringify
            env (consulta_id pendente) (pc_voucher pendente) st with
    | (Returned sendResult, st') =>
      (push {| d_voucher := pc_voucher pendente;
               d_status := status sendResult;
               d_reason := reason sendResult;
               d_tentativas := Some (pc_tentativas pendente + 1);
               d_error := None |} (contar sendResult result), st')
    | (Raised error, st') =>
      (push {| d_voucher := pc_voucher pendente; d_status := ERROR;
               d_reason := None;
               d_tentativas := Some (pc_tentativas pendente);
               d_error := Some match error with
                               | ErrorObj m _ => m
                               | OtherThrown _ _ => "Erro desconhecido"
                               end |} (contar_erro result), st')
    end.

(** The loop: the i-th run uses the i-th environment. *)
Fixpoint processar_loop (dry : bool) (envs : nat → Env) (i : nat)
    (pendentes : list PendingConsulta) (result : ProcessResult) (st : State)
    : ProcessResult * State :=
  match pendentes with
  | [] => (result, st)
  | pendente :: rest =>
    let '(result', st') := processar_um dry (envs i) pendente result st in
    processar_loop dry envs (S i) rest result' st'
  end.

(** processarPendentes: the sweep, the query, the loop.  What
    findPendingConsultas raises is not caught here. *)
Definition processarPendentes (benv : BatchEnv) (options : ProcessOptions)
    (tabs : Tables) (st : State) : Outcome ProcessResult * State :=
  let '(_, ctl1) :=
    cleanupStuckLocks cfg (b_rejection benv) (t_cleanup benv) (ctl st) in
  let st1 := {| ctl := ctl1; log := log st |} in
  match findPendingConsultas (b_rejection benv) (t_find benv) options tabs
          ctl1 with
  | Raised error => (Raised error, st1)
  | Returned pendentes =>
    let result := {| total := Z.of_nat (length pendentes); processados := 0;
                     sucesso := 0; bloqueados := 0; erros := 0;
                     detalhes := [] |} in
    let '(result', st2) :=
      processar_loop (dryRun options) (runs benv) 0 pendentes result st1 in
    (Returned result', st2)
  end.

(** ** STTController.retryVoucher *)

(** The [SET] of the reset in retryVoucher. *)
Definition set_retry (now : Z) (r : STTEnvioControle) : STTEnvioControle :=
  {| ctl_id := ctl_id r; consultaId := consultaId r;
     ctl_voucher := ctl_voucher r;
     codigoInternoStt := codigoInternoStt r; enviado := false;
     dataEnvio := dataEnvio r;
     tentativas := Z.max (tentativas r - 1) 0;
     ultimaTentativa := ultimaTentativa r;
     proximoRetry := None;
     processandoDesde := None;
     respostaStatusCode := respostaStatusCode r;
     respostaBody := respostaBody r; respostaHeaders := respostaHeaders r;
     respostaErro := respostaErro r;
     pacienteNome := pacienteNome r; profissionalNome := profissionalNome r;
     profissionalRegistro := profissionalRegistro r;
     payloadEnviado := payloadEnviado r;
     createdAt := createdAt r; updatedAt := now |}.

(** The replies of retryVoucher: 400, 404, 200 with the report of the
    batch, and the 500 of the [catch] with the error caught. *)
Inductive Reply :=
  | Reply400
  | Reply404
  | Reply200 (result : ProcessResult)
  | Reply500 (error : Thrown).

(** retryVoucher: the reply and the state. *)
Definition retryVoucher (benv : BatchEnv) (t_reset : Z) (voucher : string)
    (tabs : Tables) (st : State) : Reply * State :=
  if bool_decide (voucher = "") then (Reply400, st)
  else
    match head (filter (λ c, c_voucher c = voucher) (consultas tabs)) with
    | None => (Reply404, st)
    | Some c =>
      let st1 := {| ctl := update_controle (set_retry t_reset) (c_id c) (ctl st);
                    log := log st |} in
      match processarPendentes benv {| days := 90; limit := 1; dryRun := false |}
              tabs st1 with
      | (Returned result, st2) => (Reply200 result, st2)
      | (Raised error, st2) => (Reply500 error, st2)
      end
    end.

End Batch.

(** ** STTService: recent sends *)

(** The rows of the control table, in the order of the scan. *)
Definition controle_rows (ctl : Controles) : list STTEnvioControle :=
  (map_to_list ctl).*2.

(** The [SELECT] list of getRecentSends. *)
Record RecentSend := {
  rs_voucher : string;
  data_envio : option Z;
  resposta_status_code : option Z;
  paciente_nome : option string;
  profissional_nome : option string;
  rs_tentativas : Z;
}.

Definition recent_row (r : STTEnvioControle) : RecentSend :=
  {| rs_voucher := ctl_voucher r;
     data_envio := dataEnvio r;
     resposta_status_code := respostaStatusCode r;
     paciente_nome := pacienteNome r;
     profissional_nome := profissionalNome r;
     rs_tentativas := tentativas r |}.

(** [ORDER BY data_envio DESC]: nulls first, then the latest first. *)
Definition envio_desc (a b : STTEnvioControle) : Prop :=
  match dataEnvio a, dataEnvio b with
  | None, _ => True
  | Some _, None => False
  | Some x, Some y => y ≤ x
  end.

#[export] Instance envio_desc_dec a b : Decision (envio_desc a b).
Proof. unfold envio_desc. destruct (dataEnvio a), (dataEnvio b); apply _. Defined.

(** getRecentSends.  Rows with the same [data_envio] keep the order of the
    scan. *)
Definition getRecentSends (limite : nat) (ctl : Controles) : list RecentSend :=
  recent_row
  <$> take limite
        (merge_sort envio_desc
           (filter (λ r, enviado r = true) (controle_rows ctl))).

(** ** buscarDadosConsulta: from the joined row to the record *)

(** The row of the first query of buscarDadosConsulta.  [stt_origem] is
    read only when [stt_codigo] is truthy, that is when a scheduling row
    was joined. *)
Record ConsultaRow := {
  row_id : string;
  row_voucher : string;
  row_status : string;
  row_dataRealizada : option Z;
  evolucao_status : option string;
  evolucao_tipo_atendimento : option string;
  evolucao_queixa_duracao : option string;
  evolucao_tipo_queixa : option string;
  evolucao_historia : option string;
  evolucao_antecedente : option bool;
  evolucao_antecedente_detalhes : option string;
  evolucao_diagnostico : option string;
  evolucao_hipotese : option string;
  evolucao_conduta : option string;
  evolucao_atestado : option bool;
  evolucao_prescricao : option bool;
  evolucao_exames : option bool;
  evolucao_desfecho : option string;
  stt_codigo : option string;
  stt_origem : string;
  tempo_inicio : option Z;
  tempo_fim : option Z;
  tempo_acesso : option Z;
  row_paciente_nome : option string;
  paciente_cpf : option string;
  profissional_registro : option string;
  row_profissional_nome : option string;
}.

(** The object buscarDadosConsulta returns for a row and its CIDs.  The
    note, the scheduling linkage, the patient and the user are kept only
    when the column tested is truthy. *)
Definition consulta_of_row (data : ConsultaRow) (cids_rows : list Cid)
    : ConsultaCompleta :=
  {| cc_id := row_id data;
     cc_voucher := row_voucher data;
     cc_status := row_status data;
     dataRealizada := row_dataRealizada data;
     evolucao :=
       match truthy_str (evolucao_status data) with
       | Some s =>
         Some {| ev_status := Some s;
                 tipoAtendimentoMedico := evolucao_tipo_atendimento data;
                 queixaDuracao := evolucao_queixa_duracao data;
                 tipoQueixa := evolucao_tipo_queixa data;
                 historiaProgressa := evolucao_historia data;
                 antecedentePessoal := evolucao_antecedente data;
                 antecedentePessoalDetalhes := evolucao_antecedente_detalhes data;
                 diagnosticoDetalhado := evolucao_diagnostico data;
                 hipoteseDiagnostica := evolucao_hipotese data;
                 conduta := evolucao_conduta data;
                 atestado := evolucao_atestado data;
                 prescricao := evolucao_prescricao data;
                 solicitacaoExames := evolucao_exames data;
                 desfecho := evolucao_desfecho data;
                 cids := Some ((λ cid, {| codigo := codigo cid;
                                          descricao := descricao cid;
                                          principal := principal cid |})
                               <$> cids_rows) |}
       | None => None
       end;
     agendamentoStt :=
       match truthy_str (stt_codigo data) with
       | Some c => Some {| codigoInterno := c; origem := stt_origem data |}
       | None => None
       end;
     consultaTempo :=
       Some {| atendimentoIniciadoEm := tempo_inicio data;
               atendimentoFinalizadoEm := tempo_fim data;
               profissionalAcessouEm := tempo_acesso data |};
     paciente :=
       match truthy_str (row_paciente_nome data) with
       | Some n => Some {| nome := n; cpf := paciente_cpf data |}
       | None => None
       end;
     profissional :=
       Some {| registro := profissional_registro data;
               user := truthy_str (row_profissional_nome data) |} |}.

(** ** Middleware: authMiddleware *)

(** [s.split(c)] for a one-character separator. *)
Fixpoint split_on (c : ascii) (s : string) : list string :=
  match s with
  | EmptyString => [EmptyString]
  | String a s' =>
    if bool_decide (a = c) then EmptyString :: split_on c s'
    else match split_on c s' with
         | h :: t => String a h :: t
         | [] => [String a EmptyString]
         end
  end.

(** Whether the character occurs in the string. *)
Fixpoint has_char (c : ascii) (s : string) : bool :=
  match s with
  | EmptyString => false
  | String a s' => bool_decide (a = c) || has_char c s'
  end.

Definition space : ascii := ascii_of_nat 32.

Inductive AuthReply :=
  | AuthNext (integration : string)
  | Auth401 (error : string).

(** authMiddleware, given [config.stt.cronToken] and the [authorization]
    header: the call of [next] with [req.integration], or the 401 reply.
    Nothing in its [try] block raises, so the 500 reply of the [catch] is
    left out. *)
Definition authMiddleware (cronToken : string) (authHeader : option string)
    : AuthReply :=
  match truthy_str authHeader with
  | None => Auth401 "Token não fornecido"
  | Some h =>
    let parts := split_on space h in
    let scheme := parts !! 0%nat in
    let token := parts !! 1%nat in
    if bool_decide (scheme = Some "Bearer") then
      if bool_decide (token = Some cronToken) then AuthNext "stt"
      else Auth401 "Token inválido"
    else Auth401 "Formato de token inválido"
  end.

(** ** Observations used by the properties *)

(** The attempts counter of a record; 0 when it has no control row. *)
Definition attempts_of (ctl : Controles) (id : string) : Z :=
  default 0 (tentativas <$> ctl !! id).

Definition is_release (id : string) (ev : Event) : bool :=
  match ev with
  | EvRelease id' => bool_decide (id' = id)
  | _ => false
  end.

Definition is_post (ev : Event) : bool :=
  match ev with EvPost _ => true | _ => false end.

Definition is_acquire (ev : Event) : bool :=
  match ev with EvAcquire _ => true | _ => false end.

(** How many events of a trace satisfy [f]. *)
Fixpoint count_events (f : Event → bool) (l : list Event) : nat :=
  match l with
  | [] => 0%nat
  | ev :: l' => ((if f ev then 1 else 0) + count_events f l')%nat
  end.

Definition no_raise (r : option Thrown) : bool :=
  match r with None => true | Some _ => false end.

(** The check returned and allowed the send. *)
Definition allows (o : Outcome (bool * option string)) : bool :=
  match o with
  | Returned (canSend, _) => canSend
  | Raised _ => false
  end.

(** The invocation takes the lock: the check allows and the upsert of
    acquireLock affects a row. *)
Definition lock_taken (cfg : Config) (toLocaleString : Z → string)
    (env : Env) (id v : string) (st : State) : bool :=
  no_raise (check_raises env)
  && allows (canSendToSTT cfg toLocaleString (rejection env)
               (clock env PCheck) id (ctl st))
  && negb (lock_raises env)
  && (acquireLock cfg (rejection env) (clock env PLock) (uuid env) id v
        (ctl st)).1.

(** No attempts counter is lower in [c2] than in [c1]. *)
Definition attempts_le (c1 c2 : Controles) : Prop :=
  ∀ k, attempts_of c1 k ≤ attempts_of c2 k.

(** The reason the [catch] block of sendToSTT reports for an error. *)
Definition error_message (e : Thrown) : string :=
  match e with ErrorObj m _ => m | OtherThrown _ _ => "Erro desconhecido" end.

(** The table after the registrarErro of the [catch] block, and after the
    releaseLock of the [finally] block, in the environment [env]. *)
Definition recorded (env : Env) (id : string) (e : Thrown) (c : Controles)
    : Controles :=
  if erro_fails env then c
  else update_controle (set_erro (clock env PErro) e) id c.

Definition released (env : Env) (id : string) (c : Controles) : Controles :=
  if release_fails env then c else releaseLock (clock env PRelease) id c.

(** ** Sample data *)

Definition cfg5 : Config := {| lockTimeoutMinutes := 5; modoTeste := false |}.

(** A stand-in for the date renderings: the decimal of the epoch time. *)
Definition decimal (t : Z) : string := pretty t.

Definition sample_stringify (p : STTPayload) : string := pdf p.

(** A stand-in for the messages of the rejected statements. *)
Definition sample_rejection (s : Statement) : string :=
  match s with
  | StDelivered => ""
  | StCheck => "bind message supplies 2 parameters, but prepared statement requires 1"
  | StUpsert => "bind message supplies 3 parameters, but prepared statement requires 2"
  | StSweep => "bind message supplies 1 parameters, but prepared statement requires 0"
  | StPending => "could not determine data type of parameter $1"
  end.

Definition sample_row (id v : string) (sent : bool) (sentAt : option Z)
    (tries : Z) (retry proc code : option Z) : STTEnvioControle :=
  {| ctl_id := "row-" +:+ id; consultaId := id; ctl_voucher := v;
     codigoInternoStt := None; enviado := sent; dataEnvio := sentAt;
     tentativas := tries; ultimaTentativa := None; proximoRetry := retry;
     processandoDesde := proc; respostaStatusCode := code;
     respostaBody := None; respostaHeaders := None; respostaErro := None;
     pacienteNome := None; profissionalNome := None;
     profissionalRegistro := None; payloadEnviado := None;
     createdAt := 0; updatedAt := 0 |}.

(** A record with no clinical note, no scheduling linkage and no timing. *)
Definition consulta_vazia : ConsultaCompleta :=
  {| cc_id := "R3"; cc_voucher := "V-300"; cc_status := "finalizada";
     dataRealizada := None; evolucao := None; agendamentoStt := None;
     consultaTempo := None; paciente := None; profissional := None |}.

(** An environment where every clock reads [now], no stage raises for a
    reason of its own and no swallowed write fails. *)
Definition sample_env (now : Z) (f : FetchOutcome) (o : AxiosOutcome) : Env :=
  {| clock := λ _, now; uuid := "uuid-1"; rejection := sample_rejection;
     check_raises := None; lock_raises := false; recheck_raises := None;
     fetch := f; rendered := ""; build_raises := None;
     post := λ _, o; record_raises := None;
     erro_fails := false; release_fails := false;
     fetch_release_fails := false |}.

Definition sample_batch (now : Z) (f : FetchOutcome) (o : AxiosOutcome)
    : BatchEnv :=
  {| t_cleanup := now; t_find := now; b_rejection := sample_rejection;
     runs := λ _, sample_env now f o |}.

Definition timeout_error : Thrown :=
  ErrorObj "timeout of 30000ms exceeded" None.

Definition resp_200 : Response :=
  {| r_status := 200; r_data := "{}"; r_headers := "{}";
     r_error := None; r_statusText := Some "OK" |}.

(** R2 is locked at time 1000000 by a worker; nothing was delivered. *)
Definition ctl_R2 : Controles :=
  {[ "R2" := sample_row "R2" "V-200" false None 1 None (Some 1000000) None ]}.

(** R1 was delivered with status 200 at time 500. *)
Definition ctl_R1 : Controles :=
  {[ "R1" := sample_row "R1" "V-100" true (Some 500) 1 None None (Some 200) ]}.

(** R1 delivered as above, its row still carrying a lock taken at time
    999000. *)
Definition ctl_R1_locked : Controles :=
  {[ "R1" := sample_row "R1" "V-100" true (Some 500) 1 None (Some 999000)
               (Some 200) ]}.

(** The rows of R1 and R2 together. *)
Definition ctl_R1_R2 : Controles :=
  <[ "R1" := sample_row "R1" "V-100" true (Some 500) 1 None None (Some 200) ]>
    ctl_R2.

(** R4 failed twice and holds a lock abandoned long ago (time 0). *)
Definition ctl_R4 : Controles :=
  {[ "R4" := sample_row "R4" "V-400" false None 2 None (Some 0) None ]}.

Definition tabs_R (id v : string) : Tables :=
  {| consultas := [ {| c_id := id; c_voucher := v; c_status := "finalizada";
                       c_updatedAt := 1000000 |} ];
     agendamentos_stt := [ {| ast_voucher := v |} ];
     evolucoes := [ {| evr_id := "ev-1"; evr_consultaId := id |} ] |}.

(** A joined row whose note has the given status and a complaint. *)
Definition row_R6 (st : option string) : ConsultaRow :=
  {| row_id := "R6"; row_voucher := "V-600"; row_status := "finalizada";
     row_dataRealizada := None;
     evolucao_status := st; evolucao_tipo_atendimento := None;
     evolucao_queixa_duracao := Some "dor há 3 dias";
     evolucao_tipo_queixa := None; evolucao_historia := None;
     evolucao_antecedente := None; evolucao_antecedente_detalhes := None;
     evolucao_diagnostico := None; evolucao_hipotese := None;
     evolucao_conduta := None; evolucao_atestado := Some true;
     evolucao_prescricao := None; evolucao_exames := None;
     evolucao_desfecho := None;
     stt_codigo := Some "CASO-6"; stt_origem := "stt";
     tempo_inicio := None; tempo_fim := None; tempo_acesso := Some 900000;
     row_paciente_nome := None; paciente_cpf := None;
     profissional_registro := Some "CRM-1"; row_profissional_nome := None |}.

(** ** Statements the server rejects *)

Lemma run_statement_accepted {A} rej s (x : A) :
  accepted s = true → run_statement rej s x = Returned x.
Proof. unfold run_statement. by intros ->. Qed.

Lemma run_statement_rejected {A} rej s (x : A) :
  accepted s = false →
  run_statement rej s x = Raised (ErrorObj (rej s) None).
Proof. unfold run_statement. by intros ->. Qed.

(** ** Properties of the deduplication store *)

(** The check on a record delivered with status 200: the reason carries no
    date, because the row read has no property [dataEnvio]. *)
Lemma canSendToSTT_delivered cfg toLocaleString rej now id (ctl : Controles) r :
  select_controle ja_enviado id ctl = Some r →
  canSendToSTT cfg toLocaleString rej now id ctl
  = Returned (false, Some "Já enviado com sucesso em data desconhecida").
Proof.
  intros Hsel. unfold canSendToSTT.
  rewrite (run_statement_accepted rej StDelivered) by reflexivity.
  rewrite Hsel. reflexivity.
Qed.

(** The check on any other record: the second query is rejected. *)
Lemma canSendToSTT_not_delivered cfg toLocaleString rej now id (ctl : Controles) :
  select_controle ja_enviado id ctl = None →
  canSendToSTT cfg toLocaleString rej now id ctl
  = Raised (ErrorObj (rej StCheck) None).
Proof.
  intros Hsel. unfold canSendToSTT.
  rewrite (run_statement_accepted rej StDelivered) by reflexivity.
  rewrite Hsel.
  by rewrite (run_statement_rejected rej StCheck) by reflexivity.
Qed.

Lemma select_controle_Some cond id (ctl : Controles) r :
  ctl !! id = Some r → cond r = true → select_controle cond id ctl = Some r.
Proof. intros Hr Hc. unfold select_controle. by rewrite Hr, Hc. Qed.

Lemma select_controle_None cond id (ctl : Controles) :
  (∀ r, ctl !! id = Some r → cond r = false) →
  select_controle cond id ctl = None.
Proof.
  intros Hc. unfold select_controle.
  destruct (ctl !! id) as [r|]; [| done]. by rewrite (Hc r).
Qed.

Lemma select_controle_inv cond id (ctl : Controles) r :
  select_controle cond id ctl = Some r → ctl !! id = Some r ∧ cond r = true.
Proof.
  unfold select_controle. destruct (ctl !! id) as [r'|]; [| done].
  destruct (cond r') eqn:Hc; [| done]. by intros [= <-].
Qed.

(** The upsert of acquireLock is rejected, so acquireLock returns [false]
    and writes nothing. *)
Lemma acquireLock_upsert_rejected cfg rej now uuid id v (ctl : Controles) :
  acquireLock_upsert cfg rej now uuid id v ctl
  = Raised (ErrorObj (rej StUpsert) None).
Proof.
  unfold acquireLock_upsert.
  by rewrite (run_statement_rejected rej StUpsert) by reflexivity.
Qed.

Lemma acquireLock_rejected cfg rej now uuid id v (ctl : Controles) :
  acquireLock cfg rej now uuid id v ctl = (false, ctl).
Proof. unfold acquireLock. by rewrite acquireLock_upsert_rejected. Qed.

Lemma cleanupStuckLocks_rejected cfg rej now (ctl : Controles) :
  cleanupStuckLocks cfg rej now ctl = (0, ctl).
Proof.
  unfold cleanupStuckLocks.
  by rewrite (run_statement_rejected rej StSweep) by reflexivity.
Qed.

(** C1: for a control row that is not delivered with status 200 and whose
    lock is younger than the lock timeout, acquireLock returns [false] and
    affects no row: the table is left as it was.  (Its upsert is rejected
    by the server, and the [catch] returns [false].) *)
Theorem C1_acquireLock_live_lock_returns_false cfg rej now uuid id v
    (ctl : Controles) r t :
  ctl !! id = Some r →
  ja_enviado r = false →
  processandoDesde r = Some t →
  now - minutes (lockTimeoutMinutes cfg) < t →
  acquireLock cfg rej now uuid id v ctl = (false, ctl)
  ∧ acquireLock_upsert cfg rej now uuid id v ctl
    = Raised (ErrorObj (rej StUpsert) None).
Proof.
  intros _ _ _ _.
  split; [apply acquireLock_rejected | apply acquireLock_upsert_rejected].
Qed.

(** X5: canSendToSTT never allows a send.  For a record whose control row
    is delivered with status 200 it returns [canSend = false] with a fixed
    reason; for every other record, with or without a control row, its
    second query is rejected and it rethrows the error of the store. *)
Theorem X5_canSendToSTT_never_allows cfg toLocaleString rej now id
    (ctl : Controles) :
  allows (canSendToSTT cfg toLocaleString rej now id ctl) = false
  ∧ (∀ r, ctl !! id = Some r → ja_enviado r = true →
       canSendToSTT cfg toLocaleString rej now id ctl
       = Returned (false, Some "Já enviado com sucesso em data desconhecida"))
  ∧ (∀ r, ctl !! id = Some r → ja_enviado r = false →
       canSendToSTT cfg toLocaleString rej now id ctl
       = Raised (ErrorObj (rej StCheck) None))
  ∧ (ctl !! id = None →
     canSendToSTT cfg toLocaleString rej now id ctl
     = Raised (ErrorObj (rej StCheck) None)).
Proof.
  split; [| split; [| split]].
  - destruct (select_controle ja_enviado id ctl) as [r|] eqn:Hsel.
    + by rewrite (canSendToSTT_delivered _ _ _ _ _ _ _ Hsel).
    + by rewrite (canSendToSTT_not_delivered _ _ _ _ _ _ Hsel).
  - intros r Hr Hd. eapply canSendToSTT_delivered.
    by apply select_controle_Some.
  - intros r Hr Hd. apply canSendToSTT_not_delivered.
    apply select_controle_None. intros r' Hr'. congruence.
  - intros Hr. apply canSendToSTT_not_delivered.
    apply select_controle_None. intros r' Hr'. congruence.
Qed.

Lemma lookup_releaseLock now id (ctl : Controles) k :
  releaseLock now id ctl !! k
  = if decide (id = k) then set_unlocked now <$> ctl !! id else ctl !! k.
Proof. unfold releaseLock, update_controle. apply lookup_alter. Qed.

Lemma releaseLock_missing now id (ctl : Controles) :
  ctl !! id = None → releaseLock now id ctl = ctl.
Proof.
  intros Hr. apply map_eq. intros k. rewrite lookup_releaseLock.
  case_decide; [subst k; by rewrite Hr | done].
Qed.

(** X3: releaseLock never creates or removes a row, does nothing for a
    record with no control row, and releasing twice leaves the table of a
    single release at the later time. *)
Theorem X3_releaseLock_idempotent now now' id (ctl : Controles) :
  releaseLock now id (releaseLock now' id ctl) = releaseLock now id ctl
  ∧ dom (releaseLock now id ctl) = dom ctl
  ∧ (ctl !! id = None → releaseLock now id ctl = ctl)
  ∧ (∀ k, k ≠ id → releaseLock now id ctl !! k = ctl !! k).
Proof.
  split; [| split; [| split]].
  - apply map_eq. intros k. destruct (decide (id = k)) as [<- | Hk].
    + rewrite !lookup_releaseLock, !decide_True by done.
      by destruct (ctl !! id).
    + rewrite !lookup_releaseLock, !decide_False by done. done.
  - unfold releaseLock, update_controle. apply dom_alter_L.
  - apply releaseLock_missing.
  - intros k Hk. rewrite lookup_releaseLock. by rewrite decide_False.
Qed.

(** ** Properties of the batch query *)

(** The query of findPendingConsultas is rejected, and the function
    rethrows. *)
Lemma findPendingConsultas_rejected rej now options tabs (ctl : Controles) :
  findPendingConsultas rej now options tabs ctl
  = Raised (ErrorObj (rej StPending) None).
Proof.
  unfold findPendingConsultas.
  by rewrite (run_statement_rejected rej StPending) by reflexivity.
Qed.

(** A row the statement selects comes from a consultation whose control
    row, when there is one, passes the retry condition. *)
Lemma elem_of_pendentes_query now options tabs (ctl : Controles) p :
  p ∈ pendentes_query now options tabs ctl →
  ∃ c, c ∈ consultas tabs
       ∧ consulta_id p = c_id c
       ∧ match ctl !! c_id c with
         | Some s => pode_tentar now s = true
         | None => True
         end.
Proof.
  unfold pendentes_query. intros Hp.
  apply subseteq_take in Hp.
  rewrite merge_sort_Permutation in Hp.
  rewrite elem_of_remove_dups in Hp.
  unfold pendentes_join in Hp.
  apply list_elem_of_bind in Hp as (c & Hp & Hc).
  apply list_elem_of_bind in Hp as (a & Hp & _).
  apply list_elem_of_bind in Hp as (ev & Hp & _).
  apply list_elem_of_bind in Hp as (sec & Hp & Hsec).
  exists c. split; [done |].
  destruct (pendente_where now (days options) c ev sec) eqn:Hw;
    [| by apply not_elem_of_nil in Hp].
  apply list_elem_of_singleton in Hp. subst p. split; [done |].
  destruct (ctl !! c_id c) as [s|] eqn:Hs; [| done].
  simpl in Hsec. apply list_elem_of_singleton in Hsec. subst sec.
  unfold pendente_where in Hw.
  apply andb_prop in Hw as [_ Hw]. done.
Qed.

(** C5, as the code behaves: for a record whose control row has
    [enviado = true] and status 200, canSendToSTT returns
    [canSend = false], but its reason ends in "data desconhecida" whatever
    the delivery time is: the row read is keyed [data_envio], and the code
    reads [dataEnvio].  findPendingConsultas returns no list at all: its
    query is rejected on every input; the rows its statement selects would
    leave the record out. *)
Theorem C5_delivered_reason_without_date cfg toLocaleString rej now now'
    id (ctl : Controles) :
  (∀ r, ctl !! id = Some r → enviado r = true →
        respostaStatusCode r = Some 200 →
        canSendToSTT cfg toLocaleString rej now' id ctl
        = Returned (false, Some "Já enviado com sucesso em data desconhecida"))
  ∧ (∀ options tabs,
       findPendingConsultas rej now options tabs ctl
       = Raised (ErrorObj (rej StPending) None))
  ∧ (∀ options tabs r p,
       ctl !! id = Some r → enviado r = true →
       p ∈ pendentes_query now options tabs ctl → consulta_id p ≠ id).
Proof.
  split; [| split].
  - intros r Hr Hs Hc. eapply canSendToSTT_delivered.
    apply select_controle_Some; [done |].
    unfold ja_enviado, status_eq. by rewrite Hs, Hc.
  - intros options tabs. apply findPendingConsultas_rejected.
  - intros options tabs r p Hr Hs Hp Hid.
    apply elem_of_pendentes_query in Hp as (c & _ & Hpc & Hsec).
    rewrite <- Hpc, Hid, Hr in Hsec.
    unfold pode_tentar in Hsec. rewrite Hs in Hsec. done.
Qed.


(** ** Properties of the payload builders *)

(** C7: for a record with no clinical note buildPayload fills the defaults:
    status "Efetivo", attendance type "OMV", the three issued-document flags
    false, the free-text fields empty (the antecedents flag renders as
    "Não", the priority is "Normal", no CIDs); the attendance end is the
    rendering of now when no completion time exists; the attendance start
    is the formal start, else the professional-joined time, else null. *)
Theorem C7_payload_defaults formatSaoPaulo now pdfBase64 c :
  evolucao c = None →
  let p := buildPayload formatSaoPaulo now pdfBase64 c in
  (p_status p = "Efetivo"
   ∧ p_tipoAtendimentoMedico p = "OMV"
   ∧ p_atestado p = false ∧ p_prescricao p = false ∧ solicitaoExames p = false)
  ∧ (p_queixaDuracao p = "" ∧ p_tipoQueixa p = ""
     ∧ historiaPregressaMolestiaAtual p = "" ∧ detalharDiagnostico p = ""
     ∧ p_hipoteseDiagnostica p = "" ∧ p_conduta p = "" ∧ p_desfecho p = "")
  ∧ (antecedentesPessoais p = "Não" ∧ prioridade p = "Normal" ∧ p_cids p = [])
  ∧ (tempo_field atendimentoFinalizadoEm c = None →
     dataFimAtendimento p = formatSaoPaulo now)
  ∧ (∀ t, tempo_field atendimentoIniciadoEm c = Some t →
       dataInicioAtendimento p = Some (formatSaoPaulo t))
  ∧ (∀ t, tempo_field atendimentoIniciadoEm c = None →
       tempo_field profissionalAcessouEm c = Some t →
       dataInicioAtendimento p = Some (formatSaoPaulo t))
  ∧ (tempo_field atendimentoIniciadoEm c = None →
     tempo_field profissionalAcessouEm c = None →
     dataInicioAtendimento p = None).
Proof.
  intros Hev p. subst p. simpl.
  unfold antecedentes, ev_field, inicio_atendimento, fim_atendimento.
  rewrite Hev. simpl.
  repeat split; try done.
  - by intros ->.
  - by intros t ->.
  - by intros t -> ->.
  - by intros -> ->.
Qed.

(** Copying each CID field by field gives the same list. *)
Lemma cid_copy_id (l : list Cid) :
  (λ cid, {| codigo := codigo cid; descricao := descricao cid;
             principal := principal cid |}) <$> l = l.
Proof.
  induction l as [| [co de pr] l IH]; [done |].
  rewrite fmap_cons. f_equal. exact IH.
Qed.

(** The two builders agree on every field but [casoId]. *)
Lemma buildPayloadFromPrisma_fields formatSaoPaulo now pdfBase64 c :
  let p := buildPayload formatSaoPaulo now pdfBase64 c in
  let q := buildPayloadFromPrisma formatSaoPaulo now pdfBase64 c in
  p_status q = p_status p
  ∧ p_tipoAtendimentoMedico q = p_tipoAtendimentoMedico p
  ∧ prioridade q = prioridade p
  ∧ p_queixaDuracao q = p_queixaDuracao p
  ∧ p_tipoQueixa q = p_tipoQueixa p
  ∧ historiaPregressaMolestiaAtual q = historiaPregressaMolestiaAtual p
  ∧ antecedentesPessoais q = antecedentesPessoais p
  ∧ detalharDiagnostico q = detalharDiagnostico p
  ∧ p_hipoteseDiagnostica q = p_hipoteseDiagnostica p
  ∧ p_cids q = p_cids p
  ∧ p_conduta q = p_conduta p
  ∧ p_atestado q = p_atestado p
  ∧ p_prescricao q = p_prescricao p
  ∧ solicitaoExames q = solicitaoExames p
  ∧ p_desfecho q = p_desfecho p
  ∧ dataInicioAtendimento q = dataInicioAtendimento p
  ∧ dataFimAtendimento q = dataFimAtendimento p
  ∧ pdf q = pdf p
  ∧ crm q = crm p.
Proof.
  simpl. repeat split; try done.
  unfold cidsFormatados.
  destruct (ev_field cids c) as [l|]; simpl; [| done].
  apply cid_copy_id.
Qed.

(** With a scheduling linkage whose code is not empty the two payloads are
    equal. *)
Lemma buildPayloadFromPrisma_linked formatSaoPaulo now pdfBase64 c a :
  agendamentoStt c = Some a →
  codigoInterno a ≠ "" →
  buildPayloadFromPrisma formatSaoPaulo now pdfBase64 c
  = buildPayload formatSaoPaulo now pdfBase64 c.
Proof.
  intros Ha Hne.
  pose proof (buildPayloadFromPrisma_fields formatSaoPaulo now pdfBase64 c) as H.
  simpl in H. destruct H as (_ & _ & _ & _ & _ & _ & _ & _ & _ & Hc & _).
  unfold buildPayloadFromPrisma, buildPayload. rewrite Hc, Ha. simpl.
  unfold or_str, truthy_str. destruct (codigoInterno a); [done | done].
Qed.

(** C10: on a record with no scheduling linkage the two builders differ in
    [casoId]: buildPayload sends the empty string, buildPayloadFromPrisma
    leaves the field undefined; so the previewed payload is not the one a
    live send transmits. *)
Theorem C10_preview_differs_without_linkage formatSaoPaulo now pdfBase64 :
  casoId (buildPayload formatSaoPaulo now pdfBase64 consulta_vazia) = Some ""
  ∧ casoId (buildPayloadFromPrisma formatSaoPaulo now pdfBase64 consulta_vazia)
    = None
  ∧ buildPayloadFromPrisma formatSaoPaulo now pdfBase64 consulta_vazia
    ≠ buildPayload formatSaoPaulo now pdfBase64 consulta_vazia.
Proof.
  split; [done |]. split; [done |].
  intros H. apply (f_equal casoId) in H. done.
Qed.

(** ** Properties of the send orchestrator *)

(** Runs the monadic plumbing of a computation applied to a state. *)
Ltac run_E :=
  repeat (progress
    (unfold mbind, mret, E_bind, E_ret, throw, query, write, emit, may_raise,
       try_catch, try_finally in *;
     cbn beta iota zeta in *;
     cbn [fst snd ctl log negb] in *)).

Ltac unfold_sendToSTT :=
  unfold sendToSTT, sendToSTT_try, sendToSTT_catch, canSendToSTT_call,
    acquireLock_call, releaseLock_call, enviarHttpRequest, atualizarResultado,
    registrarErro;
  run_E.

Lemma count_events_app f l1 l2 :
  count_events f (l1 ++ l2) = (count_events f l1 + count_events f l2)%nat.
Proof. induction l1 as [| ev l1 IH]; simpl; [done |]. rewrite IH. lia. Qed.

Lemma is_release_same id : is_release id (EvRelease id) = true.
Proof. simpl. by apply bool_decide_eq_true_2. Qed.

Lemma lookup_releaseLock_cleared now id (ctl : Controles) r :
  releaseLock now id ctl !! id = Some r → processandoDesde r = None.
Proof.
  rewrite lookup_releaseLock, decide_True by done.
  destruct (ctl !! id); simpl; [| done]. by intros [= <-].
Qed.

Lemma lookup_update_controle_ne f id (ctl : Controles) k :
  k ≠ id → update_controle f id ctl !! k = ctl !! k.
Proof. intros Hk. unfold update_controle. by rewrite lookup_alter_ne. Qed.

Lemma lookup_update_controle_eq f id (ctl : Controles) :
  update_controle f id ctl !! id = f <$> ctl !! id.
Proof. unfold update_controle. apply lookup_alter_eq. Qed.


Lemma lookup_released_ne env id c k : k ≠ id → released env id c !! k = c !! k.
Proof.
  intros Hk. unfold released, releaseLock.
  destruct (release_fails env); [done | by apply lookup_update_controle_ne].
Qed.

Lemma lookup_recorded_ne env id e c k : k ≠ id → recorded env id e c !! k = c !! k.
Proof.
  intros Hk. unfold recorded.
  destruct (erro_fails env); [done | by apply lookup_update_controle_ne].
Qed.



(** X8: enviarHttpRequest makes one call to the transport and writes
    nothing.  It returns the response the transport gave, also when the
    transport raised an Axios error that carries a response; it rethrows an
    Axios error without a response and any other thrown value. *)
Theorem X8_enviarHttpRequest_outcomes post payload st :
  let out := enviarHttpRequest post payload st in
  ctl out.2 = ctl st
  ∧ log out.2 = log st ++ [EvPost payload]
  ∧ (∀ r, out.1 = Returned r
          ↔ post payload = AxiosOk r
            ∨ ∃ e, post payload = AxiosError e (Some r))
  ∧ (∀ e, out.1 = Raised e
          ↔ post payload = AxiosError e None ∨ post payload = AxiosOther e).
Proof.
  cbv zeta. unfold enviarHttpRequest. run_E.
  destruct (post payload) as [r0 | e0 [r0|] | e0]; run_E;
    (split; [done |]; split; [done |]; split;
       [intros r; split;
          [intros [= <-]; eauto | intros [H | [e' H]]; by simplify_eq]
       | intros e; split;
          [intros [= <-]; eauto | intros [H | H]; by simplify_eq]]).
Qed.

(** X28: what atualizarResultado writes, when the store takes the write.
    The row of the record is marked delivered exactly when the response has
    status 200, with the delivery time set then and null otherwise; it
    holds the status, the body, the headers and the payload of the
    exchange, a null lock, and as its error null on status 200, else
    [data.error] when truthy, else the status text.  The attempts, the last
    attempt and the retry time are left as they were; no other row is
    written and no row is created.  When the store raises, nothing is
    written and the error is thrown. *)
Theorem X28_atualizarResultado_writes stringify now id c payload resp st :
  let out := atualizarResultado stringify None now id c payload resp st in
  out.1 = Returned ()
  ∧ log out.2 = log st
  ∧ dom (ctl out.2) = dom (ctl st)
  ∧ (∀ k, k ≠ id → ctl out.2 !! k = ctl st !! k)
  ∧ (∀ r, ctl st !! id = Some r →
       ∃ r', ctl out.2 !! id = Some r'
             ∧ enviado r' = (r_status resp =? 200)
             ∧ dataEnvio r' = (if r_status resp =? 200 then Some now else None)
             ∧ respostaStatusCode r' = Some (r_status resp)
             ∧ respostaBody r' = Some (r_data resp)
             ∧ respostaHeaders r' = Some (r_headers resp)
             ∧ payloadEnviado r' = Some (stringify payload)
             ∧ respostaErro r'
               = (if r_status resp =? 200 then None
                  else match truthy_str (r_error resp) with
                       | Some e => Some e
                       | None => r_statusText resp
                       end)
             ∧ processandoDesde r' = None
             ∧ tentativas r' = tentativas r
             ∧ ultimaTentativa r' = ultimaTentativa r
             ∧ proximoRetry r' = proximoRetry r)
  ∧ (∀ e, atualizarResultado stringify (Some e) now id c payload resp st
          = (Raised e, st)).
Proof.
  cbv zeta. unfold atualizarResultado. run_E.
  split; [done |]. split; [done |].
  split; [unfold update_controle; apply dom_alter_L |].
  split; [intros k Hk; by apply lookup_update_controle_ne |].
  split; [| done].
  intros r Hr. rewrite lookup_update_controle_eq, Hr. simpl.
  eexists. split; [done |]. repeat split.
Qed.

(** The three runs of sendToSTT: the first query of the check fails; the
    record is delivered; the second query of the check is rejected. *)
Lemma sendToSTT_check_raises cfg toLocaleString formatSaoPaulo toISOString
    stringify env id v st e :
  check_raises env = Some e →
  sendToSTT cfg toLocaleString formatSaoPaulo toISOString stringify env id v st
  = (Returned (failed ERROR (error_message e)),
     {| ctl := released env id (recorded env id e (ctl st));
        log := log st ++ [EvRelease id] |}).
Proof.
  intros He. unfold_sendToSTT. rewrite He. run_E.
  unfold released, recorded, error_message.
  destruct (erro_fails env), (release_fails env); run_E; reflexivity.
Qed.

Lemma sendToSTT_delivered cfg toLocaleString formatSaoPaulo toISOString
    stringify env id v st r :
  check_raises env = None →
  select_controle ja_enviado id (ctl st) = Some r →
  sendToSTT cfg toLocaleString formatSaoPaulo toISOString stringify env id v st
  = (Returned (blocked (Some "Já enviado com sucesso em data desconhecida")),
     {| ctl := released env id (ctl st); log := log st ++ [EvRelease id] |}).
Proof.
  intros Hc Hsel. unfold_sendToSTT. rewrite Hc. run_E.
  rewrite (canSendToSTT_delivered _ _ _ _ _ _ _ Hsel). run_E.
  unfold released. destruct (release_fails env); run_E; reflexivity.
Qed.

Lemma sendToSTT_rejected cfg toLocaleString formatSaoPaulo toISOString
    stringify env id v st :
  check_raises env = None →
  select_controle ja_enviado id (ctl st) = None →
  sendToSTT cfg toLocaleString formatSaoPaulo toISOString stringify env id v st
  = (Returned (failed ERROR (rejection env StCheck)),
     {| ctl := released env id
                 (recorded env id (ErrorObj (rejection env StCheck) None)
                    (ctl st));
        log := log st ++ [EvRelease id] |}).
Proof.
  intros Hc Hsel. unfold_sendToSTT. rewrite Hc. run_E.
  rewrite (canSendToSTT_not_delivered _ _ _ _ _ _ Hsel). run_E.
  unfold released, recorded.
  destruct (erro_fails env), (release_fails env); run_E; reflexivity.
Qed.

(** Every run of sendToSTT is one of the three. *)
Lemma sendToSTT_run cfg toLocaleString formatSaoPaulo toISOString
    stringify env id v st :
  ∃ res c,
    sendToSTT cfg toLocaleString formatSaoPaulo toISOString stringify
      env id v st
    = (Returned res,
       {| ctl := released env id c; log := log st ++ [EvRelease id] |})
    ∧ ((res = blocked (Some "Já enviado com sucesso em data desconhecida")
        ∧ c = ctl st
        ∧ check_raises env = None
        ∧ is_Some (select_controle ja_enviado id (ctl st)))
       ∨ (∃ e, res = failed ERROR (error_message e)
               ∧ c = recorded env id e (ctl st)
               ∧ (check_raises env = Some e
                  ∨ (check_raises env = None
                     ∧ select_controle ja_enviado id (ctl st) = None
                     ∧ e = ErrorObj (rejection env StCheck) None)))).
Proof.
  destruct (check_raises env) as [e|] eqn:Hc.
  - eexists _, _. split; [by apply sendToSTT_check_raises |].
    right. exists e. split; [done |]. split; [done |]. by left.
  - destruct (select_controle ja_enviado id (ctl st)) as [r|] eqn:Hsel.
    + eexists _, _. split; [by eapply sendToSTT_delivered |].
      left. split; [done |]. split; [done |]. split; [done |]. by exists r.
    + eexists _, _. split; [by apply sendToSTT_rejected |].
      right. exists (ErrorObj (rejection env StCheck) None).
      split; [done |]. split; [done |]. right. done.
Qed.

(** C2 (amended): when the check returns disallowed, sendToSTT returns
    BLOCKED with the reason of the check, never calls acquireLock and posts
    nothing; the release of the [finally] block still runs, and unless its
    write fails it clears [processandoDesde] of the record and stamps
    [updatedAt]; the attempts and every other row are as they were. *)
Theorem C2_blocked_only_releases cfg toLocaleString formatSaoPaulo toISOString
    stringify env id v st reason :
  check_raises env = None →
  canSendToSTT cfg toLocaleString (rejection env) (clock env PCheck) id (ctl st)
  = Returned (false, reason) →
  let out := sendToSTT cfg toLocaleString formatSaoPaulo toISOString stringify
               env id v st in
  out.1 = Returned (blocked reason)
  ∧ log out.2 = log st ++ [EvRelease id]
  ∧ ctl out.2 = (if release_fails env then ctl st
                 else releaseLock (clock env PRelease) id (ctl st))
  ∧ (release_fails env = false →
     ctl out.2 !! id = set_unlocked (clock env PRelease) <$> ctl st !! id)
  ∧ (∀ k, k ≠ id → ctl out.2 !! k = ctl st !! k)
  ∧ attempts_of (ctl out.2) id = attempts_of (ctl st) id.
Proof.
  intros Hraise Hcan out. subst out.
  destruct (select_controle ja_enviado id (ctl st)) as [r|] eqn:Hsel.
  2: { rewrite (canSendToSTT_not_delivered _ _ _ _ _ _ Hsel) in Hcan. done. }
  rewrite (canSendToSTT_delivered _ _ _ _ _ _ _ Hsel) in Hcan.
  injection Hcan as <-.
  rewrite (sendToSTT_delivered _ _ _ _ _ _ _ _ _ _ Hraise Hsel).
  cbn [fst snd ctl log]. unfold released.
  split; [done |]. split; [done |]. split; [done |].
  split; [| split].
  - intros ->. rewrite lookup_releaseLock. by rewrite decide_True.
  - intros k Hk. destruct (release_fails env); [done |].
    rewrite lookup_releaseLock. by rewrite decide_False.
  - destruct (release_fails env); [done |].
    unfold attempts_of. rewrite lookup_releaseLock, decide_True by done.
    by destruct (ctl st !! id).
Qed.

(** C4: every invocation of sendToSTT returns a result, and the release
    step runs exactly once, as the last effect of the invocation; unless
    the write of that release fails, [processandoDesde] of the record is
    null at the end. *)
Theorem C4_release_exactly_once cfg toLocaleString formatSaoPaulo toISOString
    stringify env id v st :
  let out := sendToSTT cfg toLocaleString formatSaoPaulo toISOString stringify
               env id v st in
  (∃ res, out.1 = Returned res)
  ∧ count_events (is_release id) (log out.2)
    = (count_events (is_release id) (log st) + 1)%nat
  ∧ log out.2 = log st ++ [EvRelease id]
  ∧ (release_fails env = false →
     ∀ r, ctl out.2 !! id = Some r → processandoDesde r = None).
Proof.
  cbv zeta.
  destruct (sendToSTT_run cfg toLocaleString formatSaoPaulo toISOString
              stringify env id v st) as (res & c & -> & _).
  cbn [fst snd ctl log].
  split; [by eexists |]. split; [| split; [done |]].
  - rewrite count_events_app. cbn [count_events].
    rewrite is_release_same. lia.
  - unfold released. intros -> r. apply lookup_releaseLock_cleared.
Qed.



(** X6: an invocation of sendToSTT reads and writes only the control row of
    its own record: the row of every other record is left as it was. *)
Theorem X6_sendToSTT_touches_own_row cfg toLocaleString formatSaoPaulo
    toISOString stringify env id v st k :
  k ≠ id →
  ctl (sendToSTT cfg toLocaleString formatSaoPaulo toISOString stringify
         env id v st).2 !! k = ctl st !! k.
Proof.
  intros Hk.
  destruct (sendToSTT_run cfg toLocaleString formatSaoPaulo toISOString
              stringify env id v st) as (res & c & -> & Hcase).
  cbn [snd ctl]. rewrite lookup_released_ne by done.
  destruct Hcase as [(_ & -> & _) | (e & _ & -> & _)]; [done |].
  by apply lookup_recorded_ne.
Qed.

Lemma dom_released env id (c : Controles) : dom (released env id c) = dom c.
Proof.
  unfold released, releaseLock, update_controle.
  destruct (release_fails env); [done | apply dom_alter_L].
Qed.

Lemma dom_recorded env id e (c : Controles) : dom (recorded env id e c) = dom c.
Proof.
  unfold recorded, update_controle.
  destruct (erro_fails env); [done | apply dom_alter_L].
Qed.

(** The columns that registrarErro and releaseLock leave alone. *)
Lemma lookup_released_kept env id (c : Controles) r :
  released env id c !! id = Some r →
  ∃ r0, c !! id = Some r0 ∧ enviado r = enviado r0
        ∧ dataEnvio r = dataEnvio r0 ∧ tentativas r = tentativas r0
        ∧ respostaErro r = respostaErro r0
        ∧ proximoRetry r = proximoRetry r0
        ∧ respostaStatusCode r = respostaStatusCode r0.
Proof.
  unfold released. destruct (release_fails env).
  - intros Hr. by exists r.
  - rewrite lookup_releaseLock, decide_True by done.
    destruct (c !! id) as [r0|]; simpl; [| done].
    intros [= <-]. by exists r0.
Qed.

Lemma lookup_recorded_kept env id e (c : Controles) r :
  recorded env id e c !! id = Some r →
  ∃ r0, c !! id = Some r0 ∧ enviado r = enviado r0
        ∧ dataEnvio r = dataEnvio r0 ∧ tentativas r = tentativas r0.
Proof.
  unfold recorded. destruct (erro_fails env).
  - intros Hr. by exists r.
  - rewrite lookup_update_controle_eq.
    destruct (c !! id) as [r0|]; simpl; [| done].
    intros [= <-]. by exists r0.
Qed.

(** X7: no invocation of sendToSTT delivers anything.  It returns BLOCKED
    or ERROR, never with [success]; BLOCKED exactly when the first query of
    the check runs and finds the record delivered with status 200.  It
    calls neither acquireLock nor the transport: its only traced call is
    the release of the [finally] block.  It creates no control row and
    leaves the delivered flag, the delivery time and the attempts of the
    record as they were. *)
Theorem X7_sendToSTT_never_delivers cfg toLocaleString formatSaoPaulo
    toISOString stringify env id v st :
  let out := sendToSTT cfg toLocaleString formatSaoPaulo toISOString stringify
               env id v st in
  ∃ res,
    out.1 = Returned res
    ∧ success res = false
    ∧ (status res = BLOCKED ∨ status res = ERROR)
    ∧ (status res = BLOCKED
       ↔ check_raises env = None
         ∧ ∃ r, ctl st !! id = Some r ∧ ja_enviado r = true)
    ∧ log out.2 = log st ++ [EvRelease id]
    ∧ dom (ctl out.2) = dom (ctl st)
    ∧ (∀ r, ctl out.2 !! id = Some r →
         ∃ r0, ctl st !! id = Some r0 ∧ enviado r = enviado r0
               ∧ dataEnvio r = dataEnvio r0 ∧ tentativas r = tentativas r0).
Proof.
  cbv zeta.
  destruct (sendToSTT_run cfg toLocaleString formatSaoPaulo toISOString
              stringify env id v st) as (res & c & -> & Hcase).
  exists res. cbn [fst snd ctl log].
  destruct Hcase as [(-> & -> & Hc & [r Hsel]) | (e & -> & -> & Hcase)].
  - apply select_controle_inv in Hsel as [Hr Hd].
    split; [done |]. split; [done |]. split; [by left |].
    split; [| split; [done |]; split; [apply dom_released |]].
    + split; [intros _; split; [done | by exists r] | done].
    + intros r' Hr'.
      apply lookup_released_kept in Hr' as (r0 & ? & ? & ? & ? & _).
      by exists r0.
  - split; [done |]. split; [done |]. split; [by right |].
    split; [| split; [done |]; split].
    + split; [done |]. intros (Hc & r & Hr & Hd).
      destruct Hcase as [Hc' | (_ & Hsel & _)]; [congruence |].
      rewrite (select_controle_Some _ _ _ _ Hr Hd) in Hsel. done.
    + by rewrite dom_released, dom_recorded.
    + intros r' Hr'.
      apply lookup_released_kept in Hr' as (r1 & Hr1 & He1 & Hd1 & Ht1 & _).
      apply lookup_recorded_kept in Hr1 as (r0 & Hr0 & He0 & Hd0 & Ht0).
      exists r0. split; [done |]. split; [congruence |].
      split; congruence.
Qed.

(** The outbound calls and lock acquisitions of one invocation. *)
Lemma sendToSTT_posts cfg toLocaleString formatSaoPaulo toISOString
    stringify env id v st :
  let out := sendToSTT cfg toLocaleString formatSaoPaulo toISOString stringify
               env id v st in
  (count_events is_post (log out.2) ≤ count_events is_post (log st) + 1)%nat
  ∧ (count_events is_acquire (log out.2)
     ≤ count_events is_acquire (log st) + 1)%nat
  ∧ (modoTeste cfg = true →
     count_events is_post (log out.2) = count_events is_post (log st))
  ∧ (lock_taken cfg toLocaleString env id v st = false →
     count_events is_post (log out.2) = count_events is_post (log st)).
Proof.
  cbv zeta.
  destruct (sendToSTT_run cfg toLocaleString formatSaoPaulo toISOString
              stringify env id v st) as (res & c & -> & _).
  cbn [snd log]. rewrite !count_events_app.
  cbn [count_events is_post is_acquire].
  repeat split; intros; lia.
Qed.

(** X10: an invocation of sendToSTT makes at most one outbound call and at
    most one acquireLock; it makes no outbound call in test mode, and none
    unless it took the lock first. *)
Theorem X10_at_most_one_post cfg toLocaleString formatSaoPaulo toISOString
    stringify env id v st :
  let out := sendToSTT cfg toLocaleString formatSaoPaulo toISOString stringify
               env id v st in
  (count_events is_post (log out.2) ≤ count_events is_post (log st) + 1)%nat
  ∧ (count_events is_acquire (log out.2)
     ≤ count_events is_acquire (log st) + 1)%nat
  ∧ (modoTeste cfg = true →
     count_events is_post (log out.2) = count_events is_post (log st))
  ∧ (lock_taken cfg toLocaleString env id v st = false →
     count_events is_post (log out.2) = count_events is_post (log st)).
Proof. apply sendToSTT_posts. Qed.

(** X27: what an invocation records for a record that has a control row not
    delivered with status 200.  The result is ERROR with the message of the
    rejected query.  Unless the write of registrarErro fails, the row then
    holds that message as its error, a retry time 30 minutes after the
    clock of registrarErro, a null status code and a null lock, with the
    delivered flag and the attempts as they were; when that write fails,
    the error and the retry time of the row are as they were. *)
Theorem X27_check_failure_recorded cfg toLocaleString formatSaoPaulo
    toISOString stringify env id v st r :
  check_raises env = None →
  ctl st !! id = Some r →
  ja_enviado r = false →
  let out := sendToSTT cfg toLocaleString formatSaoPaulo toISOString stringify
               env id v st in
  out.1 = Returned (failed ERROR (rejection env StCheck))
  ∧ (∃ r', ctl out.2 !! id = Some r')
  ∧ (erro_fails env = false →
     ∀ r', ctl out.2 !! id = Some r' →
       respostaErro r' = Some (rejection env StCheck)
       ∧ proximoRetry r' = Some (clock env PErro + 1800000)
       ∧ respostaStatusCode r' = None
       ∧ processandoDesde r' = None
       ∧ enviado r' = enviado r
       ∧ tentativas r' = tentativas r)
  ∧ (erro_fails env = true →
     ∀ r', ctl out.2 !! id = Some r' →
       respostaErro r' = respostaErro r
       ∧ proximoRetry r' = proximoRetry r
       ∧ respostaStatusCode r' = respostaStatusCode r).
Proof.
  intros Hc Hr Hd out. subst out.
  rewrite sendToSTT_rejected;
    [| done | apply select_controle_None; intros r0; congruence].
  cbn [fst snd ctl]. split; [done |].
  unfold released, recorded. split; [| split].
  - destruct (erro_fails env), (release_fails env);
      rewrite ?lookup_releaseLock, ?decide_True, ?lookup_update_controle_eq,
        ?Hr by done; by eexists.
  - intros -> r'.
    destruct (release_fails env);
      rewrite ?lookup_releaseLock, ?decide_True, ?lookup_update_controle_eq,
        ?Hr by done; simpl; intros [= <-]; done.
  - intros -> r'.
    destruct (release_fails env);
      rewrite ?lookup_releaseLock, ?decide_True, ?Hr by done; simpl;
      intros [= <-]; done.
Qed.

(** ** Properties of the batch scanner *)

(** The sweep is rejected and clears nothing; the candidate query is
    rejected and its error leaves processarPendentes uncaught. *)
Lemma processarPendentes_rejected cfg toLocaleString formatSaoPaulo
    toISOString stringify benv options tabs st :
  processarPendentes cfg toLocaleString formatSaoPaulo toISOString stringify
    benv options tabs st
  = (Raised (ErrorObj (b_rejection benv StPending) None), st).
Proof.
  unfold processarPendentes.
  rewrite cleanupStuckLocks_rejected, findPendingConsultas_rejected.
  by destruct st.
Qed.

(** C3, as the code behaves: a dry run changes no control row, touches no
    lock and makes no outbound call, but it produces no report: the
    candidate query is rejected and the invocation raises the error of the
    store. *)
Theorem C3_dry_run_raises cfg toLocaleString formatSaoPaulo toISOString
    stringify benv dias limite tabs st :
  let out := processarPendentes cfg toLocaleString formatSaoPaulo toISOString
               stringify benv
               {| days := dias; limit := limite; dryRun := true |} tabs st in
  out.1 = Raised (ErrorObj (b_rejection benv StPending) None)
  ∧ ctl out.2 = ctl st
  ∧ log out.2 = log st.
Proof. cbv zeta. by rewrite processarPendentes_rejected. Qed.

(** X16: whatever the options, processarPendentes sends nothing and
    reports nothing.  Its sweep counts 0 and leaves the table as it was,
    its candidate query raises, and the invocation ends with that error,
    the table and the trace unchanged. *)
Theorem X16_processarPendentes_raises cfg toLocaleString formatSaoPaulo
    toISOString stringify benv options tabs st :
  cleanupStuckLocks cfg (b_rejection benv) (t_cleanup benv) (ctl st)
  = (0, ctl st)
  ∧ findPendingConsultas (b_rejection benv) (t_find benv) options tabs (ctl st)
    = Raised (ErrorObj (b_rejection benv StPending) None)
  ∧ processarPendentes cfg toLocaleString formatSaoPaulo toISOString stringify
      benv options tabs st
    = (Raised (ErrorObj (b_rejection benv StPending) None), st).
Proof.
  split; [apply cleanupStuckLocks_rejected |].
  split; [apply findPendingConsultas_rejected |].
  apply processarPendentes_rejected.
Qed.

(** ** Properties of retryVoucher *)

Lemma filter_none {A} (P : A → Prop) `{∀ x, Decision (P x)} (l : list A) :
  (∀ x, x ∈ l → ¬ P x) → filter P l = [].
Proof.
  induction l as [| x l IH]; intros Hl; [done |].
  rewrite filter_cons, decide_False; [| apply Hl; left].
  apply IH. intros y Hy. apply Hl. by right.
Qed.

(** X19: retryVoucher replies 400 to an empty voucher and 404 to a voucher
    of no consultation, both without touching the store.  For the voucher
    of a consultation it applies the reset to the control row of the first
    match and then replies 500 with the error of the rejected candidate
    query: the reset stays, nothing is sent, and the reply is never 200. *)
Theorem X19_retryVoucher_replies cfg toLocaleString formatSaoPaulo toISOString
    stringify benv t_reset voucher tabs st :
  let out := retryVoucher cfg toLocaleString formatSaoPaulo toISOString
               stringify benv t_reset voucher tabs st in
  (voucher = "" → out = (Reply400, st))
  ∧ (voucher ≠ "" →
     (∀ c, c ∈ consultas tabs → c_voucher c ≠ voucher) →
     out = (Reply404, st))
  ∧ (voucher ≠ "" →
     ∀ c, head (filter (λ c, c_voucher c = voucher) (consultas tabs)) = Some c →
       out = (Reply500 (ErrorObj (b_rejection benv StPending) None),
              {| ctl := update_controle (set_retry t_reset) (c_id c) (ctl st);
                 log := log st |}))
  ∧ (∀ result, out.1 ≠ Reply200 result).
Proof.
  cbv zeta. unfold retryVoucher.
  split; [| split; [| split]].
  - intros ->. done.
  - intros Hv Hnone. rewrite bool_decide_eq_false_2 by done.
    by rewrite filter_none.
  - intros Hv c Hc. rewrite bool_decide_eq_false_2 by done.
    rewrite Hc. by rewrite processarPendentes_rejected.
  - intros result. case_bool_decide; [done |].
    destruct (head _); [| done].
    by rewrite processarPendentes_rejected.
Qed.

(** ** The attempts counter *)

Lemma attempts_of_update f id (ctl : Controles) k :
  (∀ r, tentativas (f r) = tentativas r) →
  attempts_of (update_controle f id ctl) k = attempts_of ctl k.
Proof.
  intros Hf. unfold attempts_of, update_controle. rewrite lookup_alter.
  case_decide; [subst k |]; [| done].
  destruct (ctl !! id); simpl; [apply Hf | done].
Qed.

Lemma attempts_of_releaseLock now id ctl k :
  attempts_of (releaseLock now id ctl) k = attempts_of ctl k.
Proof. by apply attempts_of_update. Qed.

Lemma attempts_of_released env id c k :
  attempts_of (released env id c) k = attempts_of c k.
Proof.
  unfold released. destruct (release_fails env); [done |].
  apply attempts_of_releaseLock.
Qed.

Lemma attempts_of_recorded env id e c k :
  attempts_of (recorded env id e c) k = attempts_of c k.
Proof.
  unfold recorded. destruct (erro_fails env); [done |].
  by apply attempts_of_update.
Qed.

Lemma attempts_of_retry now id (ctl : Controles) :
  attempts_of (update_controle (set_retry now) id ctl) id
  = Z.max (attempts_of ctl id - 1) 0.
Proof.
  unfold attempts_of, update_controle. rewrite lookup_alter_eq.
  destruct (ctl !! id); simpl; [done | lia].
Qed.

(** C9 (amended): no operation of the delivery pipeline lowers an attempts
    counter: not acquireLock, releaseLock or cleanupStuckLocks, nor an
    invocation of sendToSTT or of processarPendentes.  The reset of
    retryVoucher does: it takes one from the attempts of the record, down
    to zero at most. *)
Theorem C9_attempts_counter cfg toLocaleString formatSaoPaulo toISOString
    stringify rej env benv options tabs now uuid id v t_reset st :
  attempts_le (ctl st) (acquireLock cfg rej now uuid id v (ctl st)).2
  ∧ attempts_le (ctl st) (releaseLock now id (ctl st))
  ∧ attempts_le (ctl st) (cleanupStuckLocks cfg rej now (ctl st)).2
  ∧ attempts_le (ctl st)
      (ctl (sendToSTT cfg toLocaleString formatSaoPaulo toISOString stringify
              env id v st).2)
  ∧ attempts_le (ctl st)
      (ctl (processarPendentes cfg toLocaleString formatSaoPaulo toISOString
              stringify benv options tabs st).2)
  ∧ attempts_of (update_controle (set_retry t_reset) id (ctl st)) id
    = Z.max (attempts_of (ctl st) id - 1) 0.
Proof.
  split; [| split; [| split; [| split; [| split]]]].
  - rewrite acquireLock_rejected. by intros k.
  - intros k. by rewrite attempts_of_releaseLock.
  - rewrite cleanupStuckLocks_rejected. by intros k.
  - destruct (sendToSTT_run cfg toLocaleString formatSaoPaulo toISOString
                stringify env id v st) as (res & c & -> & Hcase).
    intros k. cbn [snd ctl]. rewrite attempts_of_released.
    destruct Hcase as [(_ & -> & _) | (e & _ & -> & _)]; [done |].
    by rewrite attempts_of_recorded.
  - rewrite processarPendentes_rejected. by intros k.
  - apply attempts_of_retry.
Qed.

(** ** Properties of the recent sends *)

Lemma StronglySorted_take {A} (R : relation A) n (l : list A) :
  StronglySorted R l → StronglySorted R (take n l).
Proof.
  intros Hl. revert n. induction Hl as [| x l Hl IH Hx]; intros [| n]; cbn;
    try constructor; [apply IH | by apply Forall_take].
Qed.

Lemma elem_of_controle_rows (ctl : Controles) r :
  r ∈ controle_rows ctl ↔ ∃ k, ctl !! k = Some r.
Proof.
  unfold controle_rows. rewrite list_elem_of_fmap. split.
  - intros ([k r'] & -> & Hkr). exists k. by apply elem_of_map_to_list.
  - intros [k Hk]. exists (k, r). split; [done |]. by apply elem_of_map_to_list.
Qed.

Lemma envio_desc_trans : Transitive envio_desc.
Proof.
  unfold envio_desc. intros x y z.
  destruct (dataEnvio x), (dataEnvio y), (dataEnvio z); try done. lia.
Qed.

Lemma envio_desc_total : Total envio_desc.
Proof.
  unfold envio_desc. intros x y.
  destruct (dataEnvio x), (dataEnvio y); try (by left); try (by right). lia.
Qed.

(** X21: getRecentSends returns at most [limite] entries, each one the
    projection of a control row marked delivered, ordered by delivery time
    with the latest first (rows with no delivery time come first); when the
    cap is at least the size of the table every delivered row is listed. *)
Theorem X21_getRecentSends_lists_delivered limite (ctl : Controles) :
  let l := getRecentSends limite ctl in
  (length l ≤ limite)%nat
  ∧ (∀ x, x ∈ l →
       ∃ k r, ctl !! k = Some r ∧ enviado r = true ∧ x = recent_row r)
  ∧ StronglySorted
      (λ a b, match data_envio a, data_envio b with
              | None, _ => True
              | Some _, None => False
              | Some x, Some y => y ≤ x
              end) l
  ∧ ((size ctl ≤ limite)%nat →
     ∀ k r, ctl !! k = Some r → enviado r = true → recent_row r ∈ l).
Proof.
  cbv zeta. unfold getRecentSends.
  set (sent := filter (λ r, enviado r = true) (controle_rows ctl)).
  split; [| split; [| split]].
  - rewrite length_fmap. apply firstn_le_length.
  - intros x Hx. apply list_elem_of_fmap in Hx as (r & -> & Hr).
    apply subseteq_take in Hr. rewrite merge_sort_Permutation in Hr.
    apply list_elem_of_filter in Hr as [He Hr].
    apply elem_of_controle_rows in Hr as [k Hk]. by exists k, r.
  - eapply StronglySorted_fmap;
      [| apply StronglySorted_take, StronglySorted_merge_sort;
         [apply envio_desc_trans | apply envio_desc_total]].
    intros x y Hxy. exact Hxy.
  - intros Hsize k r Hk He. apply list_elem_of_fmap. exists r.
    split; [done |]. rewrite take_ge.
    + rewrite merge_sort_Permutation. apply list_elem_of_filter.
      split; [done |]. apply elem_of_controle_rows. by exists k.
    + rewrite merge_sort_Permutation. subst sent.
      etrans; [apply length_filter |]. unfold controle_rows.
      by rewrite length_fmap, length_map_to_list.
Qed.

(** ** Properties of the fetched record *)

(** X22: when the status column of the clinical note is null or empty,
    buscarDadosConsulta drops the whole note, and the payload built from
    the record carries none of it: every note field has its default and
    the CIDs are left out, whatever the other columns and the CID rows
    hold. *)
Theorem X22_note_without_status_dropped formatSaoPaulo now pdfBase64 data
    cids_rows :
  truthy_str (evolucao_status data) = None →
  let c := consulta_of_row data cids_rows in
  let p := buildPayload formatSaoPaulo now pdfBase64 c in
  evolucao c = None
  ∧ p_status p = "Efetivo" ∧ p_tipoAtendimentoMedico p = "OMV"
  ∧ p_queixaDuracao p = "" ∧ p_tipoQueixa p = ""
  ∧ historiaPregressaMolestiaAtual p = "" ∧ antecedentesPessoais p = "Não"
  ∧ detalharDiagnostico p = "" ∧ p_hipoteseDiagnostica p = ""
  ∧ p_cids p = [] ∧ p_conduta p = "" ∧ p_desfecho p = ""
  ∧ p_atestado p = false ∧ p_prescricao p = false ∧ solicitaoExames p = false.
Proof.
  intros Hst. cbv zeta.
  unfold buildPayload, antecedentes, ev_field, consulta_of_row.
  cbn [evolucao]. rewrite Hst. done.
Qed.

(** X23: for a fetched row whose note has a status, the payload carries the
    columns of the row: each text column or its default, the flags, the CID
    rows as they are, the scheduling code (or the empty string) as
    [casoId], the professional's registration as [crm], and the timing
    columns rendered, the end falling back to now and the start to the
    professional-joined time. *)
Theorem X23_payload_of_row formatSaoPaulo now pdfBase64 data cids_rows s :
  truthy_str (evolucao_status data) = Some s →
  let p := buildPayload formatSaoPaulo now pdfBase64
             (consulta_of_row data cids_rows) in
  p_status p = s
  ∧ p_tipoAtendimentoMedico p = or_str (evolucao_tipo_atendimento data) "OMV"
  ∧ p_queixaDuracao p = or_str (evolucao_queixa_duracao data) ""
  ∧ p_tipoQueixa p = or_str (evolucao_tipo_queixa data) ""
  ∧ historiaPregressaMolestiaAtual p = or_str (evolucao_historia data) ""
  ∧ detalharDiagnostico p = or_str (evolucao_diagnostico data) ""
  ∧ p_hipoteseDiagnostica p = or_str (evolucao_hipotese data) ""
  ∧ p_conduta p = or_str (evolucao_conduta data) ""
  ∧ p_desfecho p = or_str (evolucao_desfecho data) ""
  ∧ p_atestado p = or_bool (evolucao_atestado data) false
  ∧ p_prescricao p = or_bool (evolucao_prescricao data) false
  ∧ solicitaoExames p = or_bool (evolucao_exames data) false
  ∧ p_cids p = cids_rows
  ∧ casoId p = Some (or_str (stt_codigo data) "")
  ∧ crm p = or_str (profissional_registro data) ""
  ∧ pdf p = pdfBase64
  ∧ dataFimAtendimento p = formatSaoPaulo (default now (tempo_fim data))
  ∧ dataInicioAtendimento p
    = formatSaoPaulo
      <$> (match tempo_inicio data with
           | Some t => Some t
           | None => tempo_acesso data
           end).
Proof.
  intros Hst. cbv zeta.
  unfold buildPayload, antecedentes, ev_field, tempo_field, consulta_of_row,
    inicio_atendimento, fim_atendimento.
  cbn [evolucao agendamentoStt consultaTempo profissional].
  rewrite Hst. cbn.
  assert (Hs : or_str (Some s) "Efetivo" = s).
  { unfold or_str. destruct (evolucao_status data) as [[| a x]|]; cbn in Hst;
      simplify_eq. done. }
  rewrite Hs, cid_copy_id.
  repeat split; try done.
  - by destruct (stt_codigo data) as [[| a y]|].
  - by destruct (tempo_fim data).
  - by destruct (tempo_inicio data), (tempo_acesso data).
Qed.

(** ** Properties of the authentication middleware *)

Lemma split_on_cons c s : ∃ h t, split_on c s = h :: t.
Proof.
  destruct s as [| a s]; cbn; [by eexists _, _ |].
  case_bool_decide; [by eexists _, _ |].
  destruct (split_on c s); by eexists _, _.
Qed.

(** What [split] tells about the string: the first piece has no separator,
    and the rest is the split of what follows the first separator. *)
Lemma split_on_inv c s h t :
  split_on c s = h :: t →
  has_char c h = false
  ∧ match t with
    | [] => s = h
    | _ :: _ => ∃ s', s = h +:+ String c s' ∧ split_on c s' = t
    end.
Proof.
  revert h t. induction s as [| a s IH]; intros h t; cbn.
  - intros [= <- <-]. done.
  - case_bool_decide as Hac.
    + subst a. intros [= <- <-]. split; [done |].
      destruct (split_on_cons c s) as (h' & t' & Hs). rewrite Hs.
      exists s. done.
    + destruct (split_on_cons c s) as (h0 & t0 & Hs). rewrite Hs.
      intros [= <- <-]. destruct (IH h0 t0 Hs) as [Hh Ht].
      split; [cbn [has_char]; by rewrite (bool_decide_eq_false_2 (a = c)), Hh |].
      destruct t0 as [| y t0]; [by subst s |].
      destruct Ht as (s' & -> & Hs'). by exists s'.
Qed.

Lemma split_on_String c a s :
  split_on c (String a s)
  = if bool_decide (a = c) then EmptyString :: split_on c s
    else match split_on c s with
         | h :: t => String a h :: t
         | [] => [String a EmptyString]
         end.
Proof. done. Qed.

Lemma has_char_String c a s :
  has_char c (String a s) = bool_decide (a = c) || has_char c s.
Proof. done. Qed.

Lemma split_on_no_char c a : has_char c a = false → split_on c a = [a].
Proof.
  induction a as [| x a IH]; [done |].
  rewrite has_char_String, split_on_String.
  intros H. apply orb_false_elim in H as [Hx Ha].
  rewrite Hx, IH by done. done.
Qed.

Lemma split_on_app c a b :
  has_char c a = false →
  split_on c (a +:+ String c b) = a :: split_on c b.
Proof.
  induction a as [| x a IH].
  - intros _. change (EmptyString +:+ String c b) with (String c b).
    rewrite split_on_String. by rewrite bool_decide_eq_true_2.
  - rewrite has_char_String.
    change (String x a +:+ String c b) with (String x (a +:+ String c b)).
    rewrite split_on_String.
    intros H. apply orb_false_elim in H as [Hx Ha].
    rewrite Hx, IH by done. done.
Qed.

Lemma split_on_Bearer x :
  split_on space ("Bearer " +:+ x) = "Bearer" :: split_on space x.
Proof.
  change ("Bearer " +:+ x) with ("Bearer" +:+ String space x).
  by apply split_on_app.
Qed.

(** X24: for a configured token without a space, authMiddleware lets a
    request through exactly when its authorization header is "Bearer ", the
    token, and then nothing or a space followed by anything: what follows a
    second space is ignored. *)
Theorem X24_authMiddleware_accepts cronToken h :
  has_char space cronToken = false →
  authMiddleware cronToken (Some h) = AuthNext "stt"
  ↔ h = "Bearer " +:+ cronToken
    ∨ ∃ rest, h = "Bearer " +:+ cronToken +:+ String space rest.
Proof.
  intros Htok. unfold authMiddleware. split.
  - destruct h as [| a h']; [done |]. cbn [truthy_str].
    set (h := String a h').
    destruct (split_on_cons space h) as (x & t & Hs). rewrite Hs.
    cbn [lookup list_lookup].
    case_bool_decide as Hx; [| done]. injection Hx as ->.
    destruct t as [| y t]; [by case_bool_decide |].
    cbn [lookup list_lookup]. case_bool_decide as Hy; [| done].
    injection Hy as ->. intros _.
    apply split_on_inv in Hs as [_ (s' & -> & Hs')].
    apply split_on_inv in Hs' as [_ Ht].
    destruct t as [| z t].
    + left. by subst s'.
    + right. destruct Ht as (s'' & -> & _). by exists s''.
  - assert (Hb : ∀ x, truthy_str (Some ("Bearer " +:+ x))
                      = Some ("Bearer " +:+ x)) by done.
    intros [-> | [rest ->]]; rewrite Hb, split_on_Bearer.
    + rewrite split_on_no_char by done.
      cbn [lookup list_lookup]. by rewrite !bool_decide_eq_true_2.
    + rewrite split_on_app by done.
      cbn [lookup list_lookup]. by rewrite !bool_decide_eq_true_2.
Qed.

(** What a request that is let through tells about its header. *)
Lemma authMiddleware_next_inv cronToken authHeader i :
  authMiddleware cronToken authHeader = AuthNext i →
  i = "stt"
  ∧ has_char space cronToken = false
  ∧ ∃ s t, authHeader = Some ("Bearer " +:+ s)
           ∧ split_on space s = cronToken :: t.
Proof.
  unfold authMiddleware.
  destruct authHeader as [[| a h']|]; cbn [truthy_str]; [done | | done].
  set (h := String a h').
  destruct (split_on_cons space h) as (x & t & Hs). rewrite Hs.
  cbn [lookup list_lookup].
  case_bool_decide as Hx; [| done]. injection Hx as ->.
  destruct t as [| y t]; [by case_bool_decide |].
  cbn [lookup list_lookup]. case_bool_decide as Hy; [| done].
  injection Hy as ->. intros [= <-]. split; [done |].
  apply split_on_inv in Hs as [_ (s' & -> & Hs')].
  pose proof (split_on_inv _ _ _ _ Hs') as [Htok _].
  split; [exact Htok |]. by exists s', t.
Qed.

(** X25: authMiddleware answers 401 "Token não fornecido" when the header
    is missing or empty; a request it lets through always carries a header
    that starts with "Bearer " and is tagged with the integration "stt";
    and when the configured token contains a space no request is ever let
    through. *)
Theorem X25_authMiddleware_rejects cronToken :
  authMiddleware cronToken None = Auth401 "Token não fornecido"
  ∧ authMiddleware cronToken (Some "") = Auth401 "Token não fornecido"
  ∧ (∀ h i, authMiddleware cronToken h = AuthNext i →
       i = "stt" ∧ ∃ s, h = Some ("Bearer " +:+ s))
  ∧ (has_char space cronToken = true →
     ∀ h i, authMiddleware cronToken h ≠ AuthNext i).
Proof.
  split; [done |]. split; [done |]. split.
  - intros h i Hn.
    apply authMiddleware_next_inv in Hn as (-> & _ & s & t & -> & _).
    split; [done |]. by exists s.
  - intros Hsp h i Hn.
    apply authMiddleware_next_inv in Hn as (_ & Htok & _). congruence.
Qed.


(** ** Witnesses and counterexamples on the sample data *)

(** C1 on R2, locked at time 1000000, at that very time. *)
Lemma C1_witness :
  ctl_R2 !! "R2"
  = Some (sample_row "R2" "V-200" false None 1 None (Some 1000000) None)
  ∧ acquireLock cfg5 sample_rejection 1000000 "uuid-2" "R2" "V-200" ctl_R2
    = (false, ctl_R2).
Proof.
  split; [apply lookup_singleton_eq |].
  apply (C1_acquireLock_live_lock_returns_false cfg5 sample_rejection 1000000
           "uuid-2" "R2" "V-200" ctl_R2
           (sample_row "R2" "V-200" false None 1 None (Some 1000000) None)
           1000000);
    [apply lookup_singleton_eq | reflexivity | reflexivity | reflexivity].
Defined.

(** C2 on R1, delivered at time 500 and checked at time 1000000. *)
Lemma C2_witness :
  let env := sample_env 1000000 FetchEmpty (AxiosOk resp_200) in
  let st := {| ctl := ctl_R1; log := [] |} in
  let out := sendToSTT cfg5 decimal decimal decimal sample_stringify env
               "R1" "V-100" st in
  canSendToSTT cfg5 decimal sample_rejection 1000000 "R1" ctl_R1
  = Returned (false, Some "Já enviado com sucesso em data desconhecida")
  ∧ out.1
    = Returned (blocked (Some "Já enviado com sucesso em data desconhecida"))
  ∧ log out.2 = [EvRelease "R1"]
  ∧ attempts_of (ctl out.2) "R1" = attempts_of ctl_R1 "R1".
Proof.
  cbv zeta.
  assert (Hcan : canSendToSTT cfg5 decimal sample_rejection 1000000 "R1" ctl_R1
                 = Returned (false,
                     Some "Já enviado com sucesso em data desconhecida"))
    by (vm_compute; reflexivity).
  pose proof (C2_blocked_only_releases cfg5 decimal decimal decimal
                sample_stringify
                (sample_env 1000000 FetchEmpty (AxiosOk resp_200))
                "R1" "V-100" {| ctl := ctl_R1; log := [] |} _ eq_refl Hcan)
    as (Hres & Hlog & _ & _ & _ & Hatt).
  split; [exact Hcan |]. split; [exact Hres |].
  split; [exact Hlog | exact Hatt].
Defined.

(** Against C2 as stated: R1 is delivered with status 200 and its row still
    carries a lock.  The check disallows and the result is BLOCKED, yet the
    row is written: the lock is cleared and [updatedAt] is stamped. *)
Lemma C2_counterexample :
  let env := sample_env 1000000 FetchEmpty (AxiosOk resp_200) in
  let st := {| ctl := ctl_R1_locked; log := [] |} in
  let out := sendToSTT cfg5 decimal decimal decimal sample_stringify env
               "R1" "V-100" st in
  canSendToSTT cfg5 decimal sample_rejection 1000000 "R1" ctl_R1_locked
  = Returned (false, Some "Já enviado com sucesso em data desconhecida")
  ∧ out.1
    = Returned (blocked (Some "Já enviado com sucesso em data desconhecida"))
  ∧ processandoDesde <$> ctl_R1_locked !! "R1" = Some (Some 999000)
  ∧ processandoDesde <$> ctl out.2 !! "R1" = Some None
  ∧ updatedAt <$> ctl_R1_locked !! "R1" = Some 0
  ∧ updatedAt <$> ctl out.2 !! "R1" = Some 1000000
  ∧ ctl out.2 ≠ ctl_R1_locked.
Proof.
  cbv zeta.
  assert (Hlock : processandoDesde <$> ctl_R1_locked !! "R1"
                  = Some (Some 999000)) by (vm_compute; reflexivity).
  assert (Hout : processandoDesde
                 <$> ctl (sendToSTT cfg5 decimal decimal decimal
                            sample_stringify
                            (sample_env 1000000 FetchEmpty (AxiosOk resp_200))
                            "R1" "V-100"
                            {| ctl := ctl_R1_locked; log := [] |}).2 !! "R1"
                 = Some None) by (vm_compute; reflexivity).
  split; [vm_compute; reflexivity |]. split; [vm_compute; reflexivity |].
  split; [exact Hlock |]. split; [exact Hout |].
  split; [vm_compute; reflexivity |]. split; [vm_compute; reflexivity |].
  intros Heq. rewrite Heq, Hlock in Hout. discriminate.
Qed.

(** C7 on a record with no clinical note and no timing row. *)
Lemma C7_witness :
  evolucao consulta_vazia = None
  ∧ p_status (buildPayload decimal 1000000 "" consulta_vazia) = "Efetivo"
  ∧ dataFimAtendimento (buildPayload decimal 1000000 "" consulta_vazia)
    = "1000000"
  ∧ dataInicioAtendimento (buildPayload decimal 1000000 "" consulta_vazia)
    = None.
Proof.
  pose proof (C7_payload_defaults decimal 1000000 "" consulta_vazia eq_refl)
    as ((Hst & _) & _ & _ & Hfim & _ & _ & Hini).
  split; [reflexivity |]. split; [exact Hst |].
  split; [exact (Hfim eq_refl) | exact (Hini eq_refl eq_refl)].
Defined.

(** Against C9 as stated: R4 has two attempts; a manual retry of its
    voucher resets the row, leaving one attempt, and then replies 500. *)
Lemma C9_counterexample :
  let benv := sample_batch 1000000 FetchEmpty (AxiosOk resp_200) in
  let st := {| ctl := ctl_R4; log := [] |} in
  let out := retryVoucher cfg5 decimal decimal decimal sample_stringify benv
               1000000 "V-400" (tabs_R "R4" "V-400") st in
  out.1 = Reply500 (ErrorObj (sample_rejection StPending) None)
  ∧ attempts_of (ctl st) "R4" = 2
  ∧ attempts_of (ctl out.2) "R4" = 1
  ∧ log out.2 = [].
Proof. vm_compute. done. Qed.

(** X6: an invocation for R2 leaves the row of R1 alone. *)
Lemma X6_witness :
  "R1" ≠ "R2"
  ∧ is_Some (ctl_R1_R2 !! "R1")
  ∧ ctl (sendToSTT cfg5 decimal decimal decimal sample_stringify
           (sample_env 1000000 FetchEmpty (AxiosOther timeout_error))
           "R2" "V-200" {| ctl := ctl_R1_R2; log := [] |}).2 !! "R1"
    = ctl_R1_R2 !! "R1".
Proof.
  assert (Hne : "R1" ≠ "R2") by discriminate.
  split; [exact Hne |]. split; [by eexists |].
  exact (X6_sendToSTT_touches_own_row cfg5 decimal decimal decimal
           sample_stringify
           (sample_env 1000000 FetchEmpty (AxiosOther timeout_error))
           "R2" "V-200" {| ctl := ctl_R1_R2; log := [] |} "R1" Hne).
Defined.

(** X22 on a row whose note has a complaint and a certificate but no
    status. *)
Lemma X22_witness :
  truthy_str (evolucao_status (row_R6 None)) = None
  ∧ evolucao_queixa_duracao (row_R6 None) = Some "dor há 3 dias"
  ∧ p_queixaDuracao
      (buildPayload decimal 1000000 "" (consulta_of_row (row_R6 None) [])) = ""
  ∧ p_atestado
      (buildPayload decimal 1000000 "" (consulta_of_row (row_R6 None) []))
    = false.
Proof.
  pose proof (X22_note_without_status_dropped decimal 1000000 "" (row_R6 None)
                [] eq_refl)
    as (_ & _ & _ & Hq & _ & _ & _ & _ & _ & _ & _ & _ & Ha & _).
  split; [reflexivity |]. split; [reflexivity |]. split; [exact Hq | exact Ha].
Defined.

(** X23 on the same row with the status "Efetivo". *)
Lemma X23_witness :
  truthy_str (evolucao_status (row_R6 (Some "Efetivo"))) = Some "Efetivo"
  ∧ p_queixaDuracao
      (buildPayload decimal 1000000 ""
         (consulta_of_row (row_R6 (Some "Efetivo")) [])) = "dor há 3 dias"
  ∧ casoId
      (buildPayload decimal 1000000 ""
         (consulta_of_row (row_R6 (Some "Efetivo")) [])) = Some "CASO-6"
  ∧ dataInicioAtendimento
      (buildPayload decimal 1000000 ""
         (consulta_of_row (row_R6 (Some "Efetivo")) [])) = Some "900000".
Proof.
  pose proof (X23_payload_of_row decimal 1000000 "" (row_R6 (Some "Efetivo"))
                [] "Efetivo" eq_refl)
    as (_ & _ & Hq & _ & _ & _ & _ & _ & _ & _ & _ & _ & _ & Hc & _ & _ & _ & Hi).
  split; [reflexivity |]. split; [exact Hq |]. split; [exact Hc | exact Hi].
Defined.

(** X24: what follows the second space is ignored. *)
Lemma X24_witness :
  has_char space "segredo" = false
  ∧ authMiddleware "segredo" (Some "Bearer segredo qualquer coisa")
    = AuthNext "stt".
Proof.
  split; [reflexivity |].
  apply (X24_authMiddleware_accepts "segredo" "Bearer segredo qualquer coisa"
           eq_refl).
  right. exists "qualquer coisa". reflexivity.
Defined.

(** X27 on R4, which failed twice: the run at time 1000000 records the
    error of the rejected query and a retry at 2800000. *)
Lemma X27_witness :
  let env := sample_env 1000000 FetchEmpty (AxiosOk resp_200) in
  let out := sendToSTT cfg5 decimal decimal decimal sample_stringify env
               "R4" "V-400" {| ctl := ctl_R4; log := [] |} in
  ja_enviado (sample_row "R4" "V-400" false None 2 None (Some 0) None) = false
  ∧ out.1 = Returned (failed ERROR (sample_rejection StCheck))
  ∧ ∃ r', ctl out.2 !! "R4" = Some r'
          ∧ respostaErro r' = Some (sample_rejection StCheck)
          ∧ proximoRetry r' = Some 2800000
          ∧ tentativas r' = 2.
Proof.
  cbv zeta.
  pose proof (X27_check_failure_recorded cfg5 decimal decimal decimal
                sample_stringify
                (sample_env 1000000 FetchEmpty (AxiosOk resp_200))
                "R4" "V-400" {| ctl := ctl_R4; log := [] |}
                (sample_row "R4" "V-400" false None 2 None (Some 0) None)
                eq_refl (lookup_singleton_eq _ _) eq_refl)
    as (Hres & [r' Hr'] & Hrec & _).
  split; [reflexivity |]. split; [exact Hres |].
  exists r'. split; [exact Hr' |].
  destruct (Hrec eq_refl r' Hr') as (He & Hp & _ & _ & _ & Ht).
  split; [exact He |]. split; [exact Hp | exact Ht].
Defined.
